(** * React.py: a tool-calling agent loop with a bounded conversation memory

    A shallow embedding of [src/React.py]: the three arithmetic tools, the
    two-node graph (model call, tool dispatch) with its conditional edge, the
    [ConversationMemory] class with its JSON file, and the capture of a
    streamed run into the memory.

    Python values that travel through the memory are JSON values; Python
    [int] is [Z]; text is a [string] of UTF-8 bytes, and [lower] is
    [str.lower] on the code points they encode.
    Statements that can raise live in a state-and-exception monad [Py] whose
    state survives a raise, as Python's does. *)

From Stdlib Require Import ZArith NArith List String Ascii Bool Lia PeanoNat DecimalString.
Import ListNotations.

Set Warnings "-register-all".

Local Open Scope string_scope.
Local Open Scope list_scope.

(** ** Python values *)

Inductive json : Type :=
| JNull
| JBool (b : bool)
| JInt (n : Z)
| JFloat (repr : string)
| JStr (s : string)
| JArr (items : list json)
| JObj (fields : list (string * json)).

Inductive PyExn : Type :=
| IndexError
| KeyError (key : string)
| TypeError
| AttributeError
| ValidationError
| OSError
| JSONDecodeError
| GraphRecursionError
| ModelError (detail : string).

(** [d.get(key, default)] and [d[key]] on the fields of a dict. *)
Fixpoint dict_get (fields : list (string * json)) (key : string) : option json :=
  match fields with
  | [] => None
  | (k, v) :: rest => if String.eqb k key then Some v else dict_get rest key
  end.

(** Truth value of an object, as [if x:] takes it. *)
Definition truthy (v : json) : bool :=
  match v with
  | JNull => false
  | JBool b => b
  | JInt n => negb (n =? 0)%Z
  | JFloat r => negb (String.eqb r "0.0" || String.eqb r "-0.0")
  | JStr s => negb (String.eqb s "")
  | JArr l => match l with [] => false | _ => true end
  | JObj l => match l with [] => false | _ => true end
  end.

(** ** Text *)

(** Text is kept as its UTF-8 bytes. [str.lower] works on code points:
    the bytes are decoded, lower-cased as CPython does it, and encoded
    again. A byte that is not part of a well-formed UTF-8 sequence is
    carried through as the code point [56320 + byte] (the surrogate
    escape), which lower-casing leaves alone. *)

Definition continuation (b : ascii) : option N :=
  let n := N_of_ascii b in
  if ((128 <=? n) && (n <? 192))%N then Some (n - 128)%N else None.

Fixpoint utf8_decode (s : string) : list N :=
  match s with
  | EmptyString => []
  | String b0 rest0 =>
      let n0 := N_of_ascii b0 in
      let escaped := (56320 + n0)%N :: utf8_decode rest0 in
      if (n0 <? 128)%N then n0 :: utf8_decode rest0
      else if (n0 <? 192)%N then escaped
      else if (n0 <? 224)%N then
        match rest0 with
        | String b1 rest1 =>
            match continuation b1 with
            | Some c1 =>
                let cp := ((n0 - 192) * 64 + c1)%N in
                if (128 <=? cp)%N then cp :: utf8_decode rest1 else escaped
            | None => escaped
            end
        | EmptyString => escaped
        end
      else if (n0 <? 240)%N then
        match rest0 with
        | String b1 (String b2 rest2) =>
            match continuation b1, continuation b2 with
            | Some c1, Some c2 =>
                let cp := ((n0 - 224) * 4096 + c1 * 64 + c2)%N in
                if ((2048 <=? cp) && negb ((55296 <=? cp) && (cp <=? 57343)))%N
                then cp :: utf8_decode rest2
                else escaped
            | _, _ => escaped
            end
        | _ => escaped
        end
      else if (n0 <? 248)%N then
        match rest0 with
        | String b1 (String b2 (String b3 rest3)) =>
            match continuation b1, continuation b2, continuation b3 with
            | Some c1, Some c2, Some c3 =>
                let cp := ((n0 - 240) * 262144 + c1 * 4096 + c2 * 64 + c3)%N in
                if ((65536 <=? cp) && (cp <=? 1114111))%N
                then cp :: utf8_decode rest3
                else escaped
            | _, _, _ => escaped
            end
        | _ => escaped
        end
      else escaped
  end.

Definition byte (n : N) : string := String (ascii_of_N n) EmptyString.

Definition utf8_encode_point (cp : N) : string :=
  if (cp <? 128)%N then byte cp
  else if (cp <? 2048)%N then
    (byte (192 + cp / 64) ++ byte (128 + cp mod 64))%string
  else if ((56448 <=? cp) && (cp <=? 56575))%N then byte (cp - 56320)
  else if (cp <? 65536)%N then
    (byte (224 + cp / 4096) ++ byte (128 + (cp / 64) mod 64)
     ++ byte (128 + cp mod 64))%string
  else
    (byte (240 + cp / 262144) ++ byte (128 + (cp / 4096) mod 64)
     ++ byte (128 + (cp / 64) mod 64) ++ byte (128 + cp mod 64))%string.

Fixpoint utf8_encode (points : list N) : string :=
  match points with
  | [] => EmptyString
  | cp :: rest => (utf8_encode_point cp ++ utf8_encode rest)%string
  end.

(** The simple lower-case mappings of the Unicode character database
    (version 14.0): the code points from [lo] to [hi] in steps of [step]
    map to [target + (c - lo)]; every other code point maps to itself. *)
Definition lowercase_table : list (N * N * N * N) :=
  [(65, 90, 1, 97); (192, 214, 1, 224); (216, 222, 1, 248);
   (256, 302, 2, 257); (306, 310, 2, 307); (313, 327, 2, 314);
   (330, 374, 2, 331); (376, 376, 1, 255); (377, 381, 2, 378);
   (385, 385, 1, 595); (386, 388, 2, 387); (390, 390, 1, 596);
   (391, 391, 1, 392); (393, 394, 1, 598); (395, 395, 1, 396);
   (398, 398, 1, 477); (399, 399, 1, 601); (400, 400, 1, 603);
   (401, 401, 1, 402); (403, 403, 1, 608); (404, 404, 1, 611);
   (406, 406, 1, 617); (407, 407, 1, 616); (408, 408, 1, 409);
   (412, 412, 1, 623); (413, 413, 1, 626); (415, 415, 1, 629);
   (416, 420, 2, 417); (422, 422, 1, 640); (423, 423, 1, 424);
   (425, 425, 1, 643); (428, 428, 1, 429); (430, 430, 1, 648);
   (431, 431, 1, 432); (433, 434, 1, 650); (435, 437, 2, 436);
   (439, 439, 1, 658); (440, 440, 1, 441); (444, 444, 1, 445);
   (452, 452, 1, 454); (453, 453, 1, 454); (455, 455, 1, 457);
   (456, 456, 1, 457); (458, 458, 1, 460); (459, 475, 2, 460);
   (478, 494, 2, 479); (497, 497, 1, 499); (498, 500, 2, 499);
   (502, 502, 1, 405); (503, 503, 1, 447); (504, 542, 2, 505);
   (544, 544, 1, 414); (546, 562, 2, 547); (570, 570, 1, 11365);
   (571, 571, 1, 572); (573, 573, 1, 410); (574, 574, 1, 11366);
   (577, 577, 1, 578); (579, 579, 1, 384); (580, 580, 1, 649);
   (581, 581, 1, 652); (582, 590, 2, 583); (880, 882, 2, 881);
   (886, 886, 1, 887); (895, 895, 1, 1011); (902, 902, 1, 940);
   (904, 906, 1, 941); (908, 908, 1, 972); (910, 911, 1, 973);
   (913, 929, 1, 945); (931, 939, 1, 963); (975, 975, 1, 983);
   (984, 1006, 2, 985); (1012, 1012, 1, 952); (1015, 1015, 1, 1016);
   (1017, 1017, 1, 1010); (1018, 1018, 1, 1019); (1021, 1023, 1, 891);
   (1024, 1039, 1, 1104); (1040, 1071, 1, 1072); (1120, 1152, 2, 1121);
   (1162, 1214, 2, 1163); (1216, 1216, 1, 1231); (1217, 1229, 2, 1218);
   (1232, 1326, 2, 1233); (1329, 1366, 1, 1377); (4256, 4293, 1, 11520);
   (4295, 4295, 1, 11559); (4301, 4301, 1, 11565); (5024, 5103, 1, 43888);
   (5104, 5109, 1, 5112); (7312, 7354, 1, 4304); (7357, 7359, 1, 4349);
   (7680, 7828, 2, 7681); (7838, 7838, 1, 223); (7840, 7934, 2, 7841);
   (7944, 7951, 1, 7936); (7960, 7965, 1, 7952); (7976, 7983, 1, 7968);
   (7992, 7999, 1, 7984); (8008, 8013, 1, 8000); (8025, 8031, 2, 8017);
   (8040, 8047, 1, 8032); (8072, 8079, 1, 8064); (8088, 8095, 1, 8080);
   (8104, 8111, 1, 8096); (8120, 8121, 1, 8112); (8122, 8123, 1, 8048);
   (8124, 8124, 1, 8115); (8136, 8139, 1, 8050); (8140, 8140, 1, 8131);
   (8152, 8153, 1, 8144); (8154, 8155, 1, 8054); (8168, 8169, 1, 8160);
   (8170, 8171, 1, 8058); (8172, 8172, 1, 8165); (8184, 8185, 1, 8056);
   (8186, 8187, 1, 8060); (8188, 8188, 1, 8179); (8486, 8486, 1, 969);
   (8490, 8490, 1, 107); (8491, 8491, 1, 229); (8498, 8498, 1, 8526);
   (8544, 8559, 1, 8560); (8579, 8579, 1, 8580); (9398, 9423, 1, 9424);
   (11264, 11311, 1, 11312); (11360, 11360, 1, 11361); (11362, 11362, 1, 619);
   (11363, 11363, 1, 7549); (11364, 11364, 1, 637); (11367, 11371, 2, 11368);
   (11373, 11373, 1, 593); (11374, 11374, 1, 625); (11375, 11375, 1, 592);
   (11376, 11376, 1, 594); (11378, 11378, 1, 11379); (11381, 11381, 1, 11382);
   (11390, 11391, 1, 575); (11392, 11490, 2, 11393); (11499, 11501, 2, 11500);
   (11506, 11506, 1, 11507); (42560, 42604, 2, 42561);
   (42624, 42650, 2, 42625); (42786, 42798, 2, 42787);
   (42802, 42862, 2, 42803); (42873, 42875, 2, 42874);
   (42877, 42877, 1, 7545); (42878, 42886, 2, 42879);
   (42891, 42891, 1, 42892); (42893, 42893, 1, 613); (42896, 42898, 2, 42897);
   (42902, 42920, 2, 42903); (42922, 42922, 1, 614); (42923, 42923, 1, 604);
   (42924, 42924, 1, 609); (42925, 42925, 1, 620); (42926, 42926, 1, 618);
   (42928, 42928, 1, 670); (42929, 42929, 1, 647); (42930, 42930, 1, 669);
   (42931, 42931, 1, 43859); (42932, 42946, 2, 42933);
   (42948, 42948, 1, 42900); (42949, 42949, 1, 642); (42950, 42950, 1, 7566);
   (42951, 42953, 2, 42952); (42960, 42960, 1, 42961);
   (42966, 42968, 2, 42967); (42997, 42997, 1, 42998);
   (65313, 65338, 1, 65345); (66560, 66599, 1, 66600);
   (66736, 66771, 1, 66776); (66928, 66938, 1, 66967);
   (66940, 66954, 1, 66979); (66956, 66962, 1, 66995);
   (66964, 66965, 1, 67003); (68736, 68786, 1, 68800);
   (71840, 71871, 1, 71872); (93760, 93791, 1, 93792);
   (125184, 125217, 1, 125218)]%N.

(** The ranges of code points with the property Cased. *)
Definition cased_table : list (N * N) :=
  [(65, 90); (97, 122); (170, 170); (181, 181); (186, 186); (192, 214);
   (216, 246); (248, 442); (444, 447); (452, 659); (661, 696); (704, 705);
   (736, 740); (837, 837); (880, 883); (886, 887); (890, 893); (895, 895);
   (902, 902); (904, 906); (908, 908); (910, 929); (931, 1013); (1015, 1153);
   (1162, 1327); (1329, 1366); (1376, 1416); (4256, 4293); (4295, 4295);
   (4301, 4301); (4304, 4346); (4349, 4351); (5024, 5109); (5112, 5117);
   (7296, 7304); (7312, 7354); (7357, 7359); (7424, 7615); (7680, 7957);
   (7960, 7965); (7968, 8005); (8008, 8013); (8016, 8023); (8025, 8025);
   (8027, 8027); (8029, 8029); (8031, 8061); (8064, 8116); (8118, 8124);
   (8126, 8126); (8130, 8132); (8134, 8140); (8144, 8147); (8150, 8155);
   (8160, 8172); (8178, 8180); (8182, 8188); (8305, 8305); (8319, 8319);
   (8336, 8348); (8450, 8450); (8455, 8455); (8458, 8467); (8469, 8469);
   (8473, 8477); (8484, 8484); (8486, 8486); (8488, 8488); (8490, 8493);
   (8495, 8500); (8505, 8505); (8508, 8511); (8517, 8521); (8526, 8526);
   (8544, 8575); (8579, 8580); (9398, 9449); (11264, 11492); (11499, 11502);
   (11506, 11507); (11520, 11557); (11559, 11559); (11565, 11565);
   (42560, 42605); (42624, 42653); (42786, 42887); (42891, 42894);
   (42896, 42954); (42960, 42961); (42963, 42963); (42965, 42969);
   (42997, 42998); (43000, 43002); (43824, 43866); (43868, 43880);
   (43888, 43967); (64256, 64262); (64275, 64279); (65313, 65338);
   (65345, 65370); (66560, 66639); (66736, 66771); (66776, 66811);
   (66928, 66938); (66940, 66954); (66956, 66962); (66964, 66965);
   (66967, 66977); (66979, 66993); (66995, 67001); (67003, 67004);
   (67456, 67456); (67459, 67461); (67463, 67504); (67506, 67514);
   (68736, 68786); (68800, 68850); (71840, 71903); (93760, 93823);
   (119808, 119892); (119894, 119964); (119966, 119967); (119970, 119970);
   (119973, 119974); (119977, 119980); (119982, 119993); (119995, 119995);
   (119997, 120003); (120005, 120069); (120071, 120074); (120077, 120084);
   (120086, 120092); (120094, 120121); (120123, 120126); (120128, 120132);
   (120134, 120134); (120138, 120144); (120146, 120485); (120488, 120512);
   (120514, 120538); (120540, 120570); (120572, 120596); (120598, 120628);
   (120630, 120654); (120656, 120686); (120688, 120712); (120714, 120744);
   (120746, 120770); (120772, 120779); (122624, 122633); (122635, 122654);
   (125184, 125251); (127280, 127305); (127312, 127337); (127344, 127369)]%N.

(** The ranges of code points with the property Case_Ignorable. *)
Definition case_ignorable_table : list (N * N) :=
  [(39, 39); (46, 46); (58, 58); (94, 94); (96, 96); (168, 168); (173, 173);
   (175, 175); (180, 180); (183, 184); (688, 879); (884, 885); (890, 890);
   (900, 901); (903, 903); (1155, 1161); (1369, 1369); (1375, 1375);
   (1425, 1469); (1471, 1471); (1473, 1474); (1476, 1477); (1479, 1479);
   (1524, 1524); (1536, 1541); (1552, 1562); (1564, 1564); (1600, 1600);
   (1611, 1631); (1648, 1648); (1750, 1757); (1759, 1768); (1770, 1773);
   (1807, 1807); (1809, 1809); (1840, 1866); (1958, 1968); (2027, 2037);
   (2042, 2042); (2045, 2045); (2070, 2093); (2137, 2139); (2184, 2184);
   (2192, 2193); (2200, 2207); (2249, 2306); (2362, 2362); (2364, 2364);
   (2369, 2376); (2381, 2381); (2385, 2391); (2402, 2403); (2417, 2417);
   (2433, 2433); (2492, 2492); (2497, 2500); (2509, 2509); (2530, 2531);
   (2558, 2558); (2561, 2562); (2620, 2620); (2625, 2626); (2631, 2632);
   (2635, 2637); (2641, 2641); (2672, 2673); (2677, 2677); (2689, 2690);
   (2748, 2748); (2753, 2757); (2759, 2760); (2765, 2765); (2786, 2787);
   (2810, 2815); (2817, 2817); (2876, 2876); (2879, 2879); (2881, 2884);
   (2893, 2893); (2901, 2902); (2914, 2915); (2946, 2946); (3008, 3008);
   (3021, 3021); (3072, 3072); (3076, 3076); (3132, 3132); (3134, 3136);
   (3142, 3144); (3146, 3149); (3157, 3158); (3170, 3171); (3201, 3201);
   (3260, 3260); (3263, 3263); (3270, 3270); (3276, 3277); (3298, 3299);
   (3328, 3329); (3387, 3388); (3393, 3396); (3405, 3405); (3426, 3427);
   (3457, 3457); (3530, 3530); (3538, 3540); (3542, 3542); (3633, 3633);
   (3636, 3642); (3654, 3662); (3761, 3761); (3764, 3772); (3782, 3782);
   (3784, 3789); (3864, 3865); (3893, 3893); (3895, 3895); (3897, 3897);
   (3953, 3966); (3968, 3972); (3974, 3975); (3981, 3991); (3993, 4028);
   (4038, 4038); (4141, 4144); (4146, 4151); (4153, 4154); (4157, 4158);
   (4184, 4185); (4190, 4192); (4209, 4212); (4226, 4226); (4229, 4230);
   (4237, 4237); (4253, 4253); (4348, 4348); (4957, 4959); (5906, 5908);
   (5938, 5939); (5970, 5971); (6002, 6003); (6068, 6069); (6071, 6077);
   (6086, 6086); (6089, 6099); (6103, 6103); (6109, 6109); (6155, 6159);
   (6211, 6211); (6277, 6278); (6313, 6313); (6432, 6434); (6439, 6440);
   (6450, 6450); (6457, 6459); (6679, 6680); (6683, 6683); (6742, 6742);
   (6744, 6750); (6752, 6752); (6754, 6754); (6757, 6764); (6771, 6780);
   (6783, 6783); (6823, 6823); (6832, 6862); (6912, 6915); (6964, 6964);
   (6966, 6970); (6972, 6972); (6978, 6978); (7019, 7027); (7040, 7041);
   (7074, 7077); (7080, 7081); (7083, 7085); (7142, 7142); (7144, 7145);
   (7149, 7149); (7151, 7153); (7212, 7219); (7222, 7223); (7288, 7293);
   (7376, 7378); (7380, 7392); (7394, 7400); (7405, 7405); (7412, 7412);
   (7416, 7417); (7468, 7530); (7544, 7544); (7579, 7679); (8125, 8125);
   (8127, 8129); (8141, 8143); (8157, 8159); (8173, 8175); (8189, 8190);
   (8203, 8207); (8216, 8217); (8228, 8228); (8231, 8231); (8234, 8238);
   (8288, 8292); (8294, 8303); (8305, 8305); (8319, 8319); (8336, 8348);
   (8400, 8432); (11388, 11389); (11503, 11505); (11631, 11631);
   (11647, 11647); (11744, 11775); (11823, 11823); (12293, 12293);
   (12330, 12333); (12337, 12341); (12347, 12347); (12441, 12446);
   (12540, 12542); (40981, 40981); (42232, 42237); (42508, 42508);
   (42607, 42610); (42612, 42621); (42623, 42623); (42652, 42655);
   (42736, 42737); (42752, 42785); (42864, 42864); (42888, 42890);
   (42994, 42996); (43000, 43001); (43010, 43010); (43014, 43014);
   (43019, 43019); (43045, 43046); (43052, 43052); (43204, 43205);
   (43232, 43249); (43263, 43263); (43302, 43309); (43335, 43345);
   (43392, 43394); (43443, 43443); (43446, 43449); (43452, 43453);
   (43471, 43471); (43493, 43494); (43561, 43566); (43569, 43570);
   (43573, 43574); (43587, 43587); (43596, 43596); (43632, 43632);
   (43644, 43644); (43696, 43696); (43698, 43700); (43703, 43704);
   (43710, 43711); (43713, 43713); (43741, 43741); (43756, 43757);
   (43763, 43764); (43766, 43766); (43867, 43871); (43881, 43883);
   (44005, 44005); (44008, 44008); (44013, 44013); (64286, 64286);
   (64434, 64450); (65024, 65039); (65043, 65043); (65056, 65071);
   (65106, 65106); (65109, 65109); (65279, 65279); (65287, 65287);
   (65294, 65294); (65306, 65306); (65342, 65342); (65344, 65344);
   (65392, 65392); (65438, 65439); (65507, 65507); (65529, 65531);
   (66045, 66045); (66272, 66272); (66422, 66426); (67456, 67461);
   (67463, 67504); (67506, 67514); (68097, 68099); (68101, 68102);
   (68108, 68111); (68152, 68154); (68159, 68159); (68325, 68326);
   (68900, 68903); (69291, 69292); (69446, 69456); (69506, 69509);
   (69633, 69633); (69688, 69702); (69744, 69744); (69747, 69748);
   (69759, 69761); (69811, 69814); (69817, 69818); (69821, 69821);
   (69826, 69826); (69837, 69837); (69888, 69890); (69927, 69931);
   (69933, 69940); (70003, 70003); (70016, 70017); (70070, 70078);
   (70089, 70092); (70095, 70095); (70191, 70193); (70196, 70196);
   (70198, 70199); (70206, 70206); (70367, 70367); (70371, 70378);
   (70400, 70401); (70459, 70460); (70464, 70464); (70502, 70508);
   (70512, 70516); (70712, 70719); (70722, 70724); (70726, 70726);
   (70750, 70750); (70835, 70840); (70842, 70842); (70847, 70848);
   (70850, 70851); (71090, 71093); (71100, 71101); (71103, 71104);
   (71132, 71133); (71219, 71226); (71229, 71229); (71231, 71232);
   (71339, 71339); (71341, 71341); (71344, 71349); (71351, 71351);
   (71453, 71455); (71458, 71461); (71463, 71467); (71727, 71735);
   (71737, 71738); (71995, 71996); (71998, 71998); (72003, 72003);
   (72148, 72151); (72154, 72155); (72160, 72160); (72193, 72202);
   (72243, 72248); (72251, 72254); (72263, 72263); (72273, 72278);
   (72281, 72283); (72330, 72342); (72344, 72345); (72752, 72758);
   (72760, 72765); (72767, 72767); (72850, 72871); (72874, 72880);
   (72882, 72883); (72885, 72886); (73009, 73014); (73018, 73018);
   (73020, 73021); (73023, 73029); (73031, 73031); (73104, 73105);
   (73109, 73109); (73111, 73111); (73459, 73460); (78896, 78904);
   (92912, 92916); (92976, 92982); (92992, 92995); (94031, 94031);
   (94095, 94111); (94176, 94177); (94179, 94180); (110576, 110579);
   (110581, 110587); (110589, 110590); (113821, 113822); (113824, 113827);
   (118528, 118573); (118576, 118598); (119143, 119145); (119155, 119170);
   (119173, 119179); (119210, 119213); (119362, 119364); (121344, 121398);
   (121403, 121452); (121461, 121461); (121476, 121476); (121499, 121503);
   (121505, 121519); (122880, 122886); (122888, 122904); (122907, 122913);
   (122915, 122916); (122918, 122922); (123184, 123197); (123566, 123566);
   (123628, 123631); (125136, 125142); (125252, 125259); (127995, 127999);
   (917505, 917505); (917536, 917631); (917760, 917999)]%N.

Definition in_ranges (c : N) (table : list (N * N)) : bool :=
  existsb (fun r => ((fst r <=? c) && (c <=? snd r))%N) table.

Definition is_cased (c : N) : bool := in_ranges c cased_table.

Definition is_case_ignorable (c : N) : bool := in_ranges c case_ignorable_table.

Fixpoint lookup_lower (c : N) (table : list (N * N * N * N)) : N :=
  match table with
  | [] => c
  | (lo, hi, step, target) :: rest =>
      if ((lo <=? c) && (c <=? hi) && ((c - lo) mod step =? 0))%N
      then (target + (c - lo))%N
      else lookup_lower c rest
  end.

(** The full lower-case mapping of one code point: U+0130 is the only one
    that lower-cases to more than one code point. *)
Definition to_lower_full (c : N) : list N :=
  if (c =? 304)%N then [105; 775]%N else [lookup_lower c lowercase_table].

(** The part of the final-sigma test that looks ahead: after any number
    of case-ignorable code points comes a cased one. *)
Fixpoint cased_follows (rest : list N) : bool :=
  match rest with
  | [] => false
  | c :: rest' => if is_case_ignorable c then cased_follows rest' else is_cased c
  end.

(** Lower-casing of a sequence of code points. [cased_before] tells
    whether, going back over case-ignorable code points, the nearest other
    code point is cased; a capital sigma (931) between such a code point
    and no cased follower becomes the final sigma (962), and the small
    sigma (963) otherwise. *)
Fixpoint lower_points (cased_before : bool) (points : list N) : list N :=
  match points with
  | [] => []
  | c :: rest =>
      (if (c =? 931)%N
       then [if cased_before && negb (cased_follows rest) then 962 else 963]%N
       else to_lower_full c)
      ++ lower_points (if is_case_ignorable c then cased_before else is_cased c) rest
  end.

(** [s.lower()]. *)
Definition lower (s : string) : string :=
  utf8_encode (lower_points false (utf8_decode s)).

(** [needle in hay] on text. *)
Fixpoint contains (needle hay : string) : bool :=
  String.prefix needle hay
  || match hay with
     | EmptyString => false
     | String _ rest => contains needle rest
     end.

(** ** Slices *)

(** [l[start:]] with Python's reading of a negative or too large start. *)
Definition slice_from {A : Type} (start : Z) (l : list A) : list A :=
  let n := Z.of_nat (List.length l) in
  let i := if (start <? 0)%Z then Z.max 0 (n + start) else Z.min start n in
  skipn (Z.to_nat i) l.

(** [l[-1]], which raises on an empty list. *)
Fixpoint last_item {A : Type} (l : list A) : option A :=
  match l with
  | [] => None
  | [x] => Some x
  | _ :: rest => last_item rest
  end.

(** ** Tools *)

Definition add (a b : Z) : Z := a + b.
Definition subtract (a b : Z) : Z := a - b.
Definition multiply (a b : Z) : Z := a * b.

Record Tool : Type := {
  tool_name : string;
  tool_doc : string;
  tool_func : Z -> Z -> Z
}.

Definition add_tool : Tool := {| tool_name := "add"; tool_doc := "Add two numbers"; tool_func := add |}.
Definition subtract_tool : Tool :=
  {| tool_name := "subtract"; tool_doc := "Subtract two numbers"; tool_func := subtract |}.
Definition multiply_tool : Tool :=
  {| tool_name := "multiply"; tool_doc := "Multiply two numbers"; tool_func := multiply |}.

Definition TOOLS : list Tool := [add_tool; subtract_tool; multiply_tool].

(** ** Messages *)

Record ToolCall : Type := {
  call_name : string;
  call_args : list (string * json);
  call_id : string
}.

Inductive ToolStatus : Type := StatusSuccess | StatusError.

Inductive Message : Type :=
| HumanMessage (content : json)
| SystemMessage (content : json)
| AIMessage (content : json) (tool_calls : list ToolCall)
| ToolMessage (content : json) (tool_call_id : string) (status : ToolStatus).

Definition message_content (m : Message) : json :=
  match m with
  | HumanMessage c | SystemMessage c | AIMessage c _ | ToolMessage c _ _ => c
  end.

(** [hasattr(m, "tool_calls") and m.tool_calls]: only a model message has
    the attribute, and an empty list is false. *)
Definition pending_tool_calls (m : Message) : list ToolCall :=
  match m with
  | AIMessage _ calls => calls
  | _ => []
  end.

Definition has_tool_calls (m : Message) : bool :=
  match pending_tool_calls m with
  | [] => false
  | _ :: _ => true
  end.

(** The message classes accept text or a list of text and dict blocks as
    content and reject anything else when constructed. *)
Definition valid_content (v : json) : bool :=
  match v with
  | JStr _ => true
  | JArr l => forallb (fun x => match x with JStr _ | JObj _ => true | _ => false end) l
  | _ => false
  end.

(** ** The machine: memory object, storage file, clock and terminal *)

(** What [open] and [json.load] find at [conversation_memory.json]. *)
Inductive file_state : Type :=
| Absent
| Unreadable
| Garbage
| Document (doc : json).

Inductive event : Type :=
| PrintLoaded (n : nat)
| PrintLoadFailed (e : PyExn)
| PrintSaveFailed (e : PyExn)
| PrettyPrint (m : Message)
| FileWrite (doc : json).

Record State : Type := mkState {
  conversation_history : json;
  disk : file_state;
  writable : bool;
  ticks : nat;
  clock : nat -> string;
  stdout : list event
}.

Definition with_history (h : json) (st : State) : State :=
  mkState h (disk st) (writable st) (ticks st) (clock st) (stdout st).
Definition with_disk (d : file_state) (st : State) : State :=
  mkState (conversation_history st) d (writable st) (ticks st) (clock st) (stdout st).
Definition with_ticks (n : nat) (st : State) : State :=
  mkState (conversation_history st) (disk st) (writable st) n (clock st) (stdout st).
Definition with_event (e : event) (st : State) : State :=
  mkState (conversation_history st) (disk st) (writable st) (ticks st) (clock st)
          (stdout st ++ [e]).

(** ** Statements: state and exceptions *)

Definition Py (A : Type) : Type := State -> (A + PyExn) * State.

Definition ret {A : Type} (a : A) : Py A := fun st => (inl a, st).

Definition raise {A : Type} (e : PyExn) : Py A := fun st => (inr e, st).

Definition bind {A B : Type} (c : Py A) (k : A -> Py B) : Py B :=
  fun st =>
    match c st with
    | (inl a, st') => k a st'
    | (inr e, st') => (inr e, st')
    end.

(** [try: body except Exception as e: handler(e)]. *)
Definition try_except {A : Type} (body : Py A) (handler : PyExn -> Py A) : Py A :=
  fun st =>
    match body st with
    | (inl a, st') => (inl a, st')
    | (inr e, st') => handler e st'
    end.

Declare Scope py_scope.
Delimit Scope py_scope with py.
Notation "x <- c ;; k" := (bind c (fun x => k))
  (at level 61, c at next level, right associativity) : py_scope.
Notation "c ;; k" := (bind c (fun _ => k))
  (at level 61, right associativity) : py_scope.
Local Open Scope py_scope.

Definition get_history : Py json := fun st => (inl (conversation_history st), st).
Definition set_history (h : json) : Py unit := fun st => (inl tt, with_history h st).
Definition print (e : event) : Py unit := fun st => (inl tt, with_event e st).

(** [datetime.now().isoformat()]: the next reading of the clock. *)
Definition datetime_now : Py string :=
  fun st => (inl (clock st (ticks st)), with_ticks (S (ticks st)) st).

Definition of_option {A : Type} (o : option A) (e : PyExn) : Py A :=
  match o with
  | Some a => ret a
  | None => raise e
  end.

Fixpoint mapM {A B : Type} (f : A -> Py B) (l : list A) : Py (list B) :=
  match l with
  | [] => ret []
  | x :: rest => y <- f x ;; ys <- mapM f rest ;; ret (y :: ys)
  end.

Fixpoint filterM {A : Type} (f : A -> Py bool) (l : list A) : Py (list A) :=
  match l with
  | [] => ret []
  | x :: rest =>
      keep <- f x ;; ys <- filterM f rest ;; ret (if keep then x :: ys else ys)
  end.

(** ** Operations of the interpreter on objects *)

Definition chars (s : string) : list json :=
  map (fun c => JStr (String c EmptyString)) (list_ascii_of_string s).

(** [len(v)]. *)
Definition py_len (v : json) : Py nat :=
  match v with
  | JStr s => ret (String.length s)
  | JArr l => ret (List.length l)
  | JObj l => ret (List.length l)
  | _ => raise TypeError
  end.

(** [for x in v]: the items the loop visits. *)
Definition py_iter (v : json) : Py (list json) :=
  match v with
  | JStr s => ret (chars s)
  | JArr l => ret l
  | JObj l => ret (map (fun kv => JStr (fst kv)) l)
  | _ => raise TypeError
  end.

(** [for x in v[start:]]: the items of the slice. *)
Definition py_iter_slice_from (start : Z) (v : json) : Py (list json) :=
  match v with
  | JStr s => ret (slice_from start (chars s))
  | JArr l => ret (slice_from start l)
  | _ => raise TypeError
  end.

(** [v[key]] with a text key. *)
Definition subscript (v : json) (key : string) : Py json :=
  match v with
  | JObj fields => of_option (dict_get fields key) (KeyError key)
  | _ => raise TypeError
  end.

(** [v.get(key, default)]. *)
Definition py_get (v : json) (key : string) (default : json) : Py json :=
  match v with
  | JObj fields =>
      ret match dict_get fields key with Some x => x | None => default end
  | _ => raise AttributeError
  end.

(** [v.lower()]. *)
Definition py_lower (v : json) : Py string :=
  match v with
  | JStr s => ret (lower s)
  | _ => raise AttributeError
  end.

Definition new_HumanMessage (content : json) : Py Message :=
  if valid_content content then ret (HumanMessage content) else raise ValidationError.

Definition new_SystemMessage (content : json) : Py Message :=
  if valid_content content then ret (SystemMessage content) else raise ValidationError.

(** ** ConversationMemory *)

Section Memory.

(** [str(v)] of a value that is not text, as an f-string renders it. *)
Variable repr_value : json -> string.

Definition format_value (v : json) : string :=
  match v with
  | JStr s => s
  | _ => repr_value v
  end.

(** [open(self.memory_file, "r")] followed by [json.load(f)]. *)
Definition read_json : Py json :=
  fun st =>
    match disk st with
    | Document doc => (inl doc, st)
    | Garbage => (inr JSONDecodeError, st)
    | Absent | Unreadable => (inr OSError, st)
    end.

(** [open(self.memory_file, "w")]: the file is emptied when it opens. *)
Definition open_write : Py unit :=
  fun st => if writable st then (inl tt, with_disk Garbage st) else (inr OSError, st).

(** [json.dump(doc, f, ...)] into the file just opened. *)
Definition json_dump (doc : json) : Py unit :=
  fun st => (inl tt, with_event (FileWrite doc) (with_disk (Document doc) st)).

Definition path_exists : Py bool :=
  fun st => (inl match disk st with Absent => false | _ => true end, st).

Definition load_memory : Py unit :=
  found <- path_exists ;;
  if negb found then ret tt
  else
    try_except
      (data <- read_json ;;
       convs <- py_get data "conversations" (JArr []) ;;
       set_history convs ;;
       h <- get_history ;;
       n <- py_len h ;;
       print (PrintLoaded n))
      (fun e => print (PrintLoadFailed e)).

(** [ConversationMemory()]: an empty history, then [load_memory]. *)
Definition init_memory : Py unit :=
  set_history (JArr []) ;; load_memory.

Definition save_memory : Py unit :=
  try_except
    (open_write ;;
     h <- get_history ;;
     now <- datetime_now ;;
     json_dump (JObj [("conversations", h); ("last_updated", JStr now)]))
    (fun e => print (PrintSaveFailed e)).

Definition new_record (timestamp user : string) (agent : json) : json :=
  JObj [("timestamp", JStr timestamp); ("user", JStr user); ("agent", agent)].

Definition add_conversation (user_input : string) (agent_response : json) : Py unit :=
  h <- get_history ;;
  match h with
  | JArr items =>
      now <- datetime_now ;;
      set_history (JArr (items ++ [new_record now user_input agent_response])) ;;
      h' <- get_history ;;
      match h' with
      | JArr items' => set_history (JArr (slice_from (-50) items'))
      | _ => raise TypeError
      end
  | _ => raise AttributeError
  end.

(** The loop of [get_context_messages]: two appends per record. *)
Fixpoint context_loop (window : list json) (messages : list Message) : Py (list Message) :=
  match window with
  | [] => ret messages
  | conv :: rest =>
      u <- subscript conv "user" ;;
      hm <- new_HumanMessage u ;;
      a <- subscript conv "agent" ;;
      sm <- new_SystemMessage (JStr ("Previous response: " ++ format_value a)) ;;
      context_loop rest ((messages ++ [hm]) ++ [sm])
  end.

Definition get_context_messages (limit : Z) : Py (list Message) :=
  h <- get_history ;;
  window <- py_iter_slice_from (- limit) h ;;
  context_loop window [].

Definition matches (keyword : string) (conv : json) : Py bool :=
  u <- subscript conv "user" ;;
  ul <- py_lower u ;;
  if contains (lower keyword) ul then ret true
  else
    a <- subscript conv "agent" ;;
    al <- py_lower a ;;
    ret (contains (lower keyword) al).

Definition search_memory (keyword : string) : Py (list json) :=
  h <- get_history ;;
  convs <- py_iter h ;;
  filterM (matches keyword) convs.

(** The [clear memory] command of [main]. *)
Definition clear_memory : Py unit :=
  set_history (JArr []) ;; save_memory.

End Memory.

(** ** The graph *)

Definition nl : string := String (ascii_of_nat 10) EmptyString.

Definition system_message : Message :=
  SystemMessage
    (JStr ("You are my personal AI agent with memory." ++ nl
           ++ "1. Answer accurately" ++ nl
           ++ "2. Use previous context" ++ nl
           ++ "3. Use tools when required" ++ nl
           ++ "4. Stay conversational")).

(** [AgentState]: its one channel, [messages]. *)
Definition AgentState : Type := list Message.

(** The reducer of the channel. The messages a run produces carry fresh
    identifiers, so the update is added at the end. *)
Definition add_messages (left right : list Message) : list Message := left ++ right.

Inductive Branch : Type := Continue | End.

Inductive Node : Type := agent_calling | tools | END.

Inductive StreamEnd : Type :=
| Finished
| Raised (e : PyExn)
| OutOfSteps.

Definition should_continue (state : AgentState) : Branch + PyExn :=
  match last_item state with
  | None => inr IndexError
  | Some last_message =>
      if has_tool_calls last_message then inl Continue else inl End
  end.

(** The mapping given to [add_conditional_edges]. *)
Definition conditional_edge (b : Branch) : Node :=
  match b with
  | Continue => tools
  | End => END
  end.

Section Graph.

(** [model_with_tools.invoke]: the remote model, which answers or fails. *)
Variable model_invoke : list Message -> Message + PyExn.

(** The [tools] node: the update it computes from a state, or a raise. *)
Variable tool_node : AgentState -> list Message + PyExn.

(** The list [model_call] hands to the model. *)
Definition model_input (state : AgentState) : list Message :=
  [system_message] ++ state.

Definition model_call (state : AgentState) : list Message + PyExn :=
  match model_invoke (model_input state) with
  | inl response => inl [response]
  | inr e => inr e
  end.

(** One node runs, its update is merged, the outgoing edge is followed. *)
Definition graph_step (node : Node) (state : AgentState) : (Node * AgentState) + PyExn :=
  match node with
  | agent_calling =>
      match model_call state with
      | inr e => inr e
      | inl update =>
          let state' := add_messages state update in
          match should_continue state' with
          | inr e => inr e
          | inl b => inl (conditional_edge b, state')
          end
      end
  | tools =>
      match tool_node state with
      | inr e => inr e
      | inl update => inl (agent_calling, add_messages state update)
      end
  | END => inl (END, state)
  end.

(** The values the compiled graph yields after each node, from [node] on;
    [fuel] is the number of node executions allowed. *)
Fixpoint stream_from (fuel : nat) (node : Node) (state : AgentState)
  : list AgentState * StreamEnd :=
  match node with
  | END => ([], Finished)
  | _ =>
      match fuel with
      | O => ([], OutOfSteps)
      | S fuel' =>
          match graph_step node state with
          | inr e => ([], Raised e)
          | inl (next, state') =>
              let (values, how) := stream_from fuel' next state' in
              (state' :: values, how)
          end
      end
  end.

(** [app.stream(inputs, stream_mode="values")]: the input state first,
    then the state after every node. *)
Definition app_stream (fuel : nat) (inputs : AgentState) : list AgentState * StreamEnd :=
  let (values, how) := stream_from fuel agent_calling inputs in
  (inputs :: values, how).

End Graph.

(** ** Streaming and memory capture *)

(** How a consumed stream ends for the [for] loop that reads it: a graph
    that runs out of its step budget raises. *)
Definition end_of_stream (how : StreamEnd) : Py unit :=
  match how with
  | Finished => ret tt
  | Raised e => raise e
  | OutOfSteps => raise GraphRecursionError
  end.

(** The [for s in stream] loop of [print_stream_with_memory]; the result
    is the value of [agent_response] when the loop is left. *)
Fixpoint capture_loop (values : list AgentState) (agent_response : json) : Py json :=
  match values with
  | [] => ret agent_response
  | s :: rest =>
      message <- of_option (last_item s) IndexError ;;
      print (PrettyPrint message) ;;
      capture_loop rest (message_content message)
  end.

Definition print_stream_with_memory (stream : list AgentState * StreamEnd)
    (user_input : string) : Py unit :=
  agent_response <- capture_loop (fst stream) (JStr "") ;;
  end_of_stream (snd stream) ;;
  if truthy agent_response then
    add_conversation user_input agent_response ;;
    save_memory
  else ret tt.

Section Turn.

Variable repr_value : json -> string.
Variable model_invoke : list Message -> Message + PyExn.
Variable tool_node : AgentState -> list Message + PyExn.
Variable fuel : nat.

(** The state [main] builds for a new turn. *)
Definition turn_inputs (user_prompt : string) : Py AgentState :=
  context <- get_context_messages repr_value 5 ;;
  hm <- new_HumanMessage (JStr user_prompt) ;;
  ret (context ++ [hm]).

(** The last branch of the loop in [main]: one turn of conversation. *)
Definition main_turn (user_prompt : string) : Py unit :=
  inputs <- turn_inputs user_prompt ;;
  print_stream_with_memory (app_stream model_invoke tool_node fuel inputs) user_prompt.

End Turn.

(** ** The tool registry and the tools node *)

Inductive InvocationError : Type :=
| UnknownTool (name : string)
| ArgumentMismatch (name : string).

(** Modelled from the spec: [ToolNode] of [langgraph.prebuilt], whose code
    is not part of the source. The registry maps a tool name to a function
    with a declared parameter schema; [resolve] finds the tool or not. *)
Definition resolve (name : string) : option Tool :=
  find (fun t => String.eqb (tool_name t) name) TOOLS.

(** The declared schema of the three tools: [a: int, b: int]. *)
Definition schema_args (args : list (string * json)) : option (Z * Z) :=
  match dict_get args "a", dict_get args "b" with
  | Some (JInt a), Some (JInt b) => Some (a, b)
  | _, _ => None
  end.

(** Modelled from the spec: [invoke(name, args) -> value | InvocationError],
    the error being an unknown name or arguments that miss the schema. *)
Definition invoke (name : string) (args : list (string * json)) : Z + InvocationError :=
  match resolve name with
  | None => inr (UnknownTool name)
  | Some t =>
      match schema_args args with
      | Some (a, b) => inl (tool_func t a b)
      | None => inr (ArgumentMismatch name)
      end
  end.

Definition describe (err : InvocationError) : string :=
  match err with
  | UnknownTool name => "Error: " ++ name ++ " is not a valid tool"
  | ArgumentMismatch name => "Error: invalid arguments for " ++ name
  end.

(** Modelled from the spec: the ToolResult of one request, a tool message
    correlated by the request identifier that carries the value or, for an
    InvocationError, the failure indicator and its description. *)
Definition tool_result (call : ToolCall) : Message :=
  match invoke (call_name call) (call_args call) with
  | inl v =>
      ToolMessage (JStr (NilEmpty.string_of_int (Z.to_int v))) (call_id call) StatusSuccess
  | inr err => ToolMessage (JStr (describe err)) (call_id call) StatusError
  end.

(** Modelled from the spec: the DISPATCH_TOOLS step, one ToolResult for
    every request of the most recent message, in the order listed. *)
Definition registry_tool_node (state : AgentState) : list Message + PyExn :=
  match last_item state with
  | Some (AIMessage _ calls) => inl (map tool_result calls)
  | Some _ => inr TypeError
  | None => inr IndexError
  end.

(** ** A sample run: "What is 3 times 4?" *)

Definition multiply_3_4 : ToolCall :=
  {| call_name := "multiply";
     call_args := [("a", JInt 3); ("b", JInt 4)];
     call_id := "call_1" |}.

(** A model that asks for [multiply(3, 4)] and, once the conversation ends
    in a tool message, answers with its content. *)
Definition sample_model (messages : list Message) : Message + PyExn :=
  match last_item messages with
  | Some (ToolMessage (JStr result) _ _) =>
      inl (AIMessage (JStr ("3 times 4 is " ++ result)) [])
  | Some (HumanMessage _) => inl (AIMessage (JStr "") [multiply_3_4])
  | _ => inr (ModelError "unexpected conversation")
  end.

Definition sample_inputs : AgentState := [HumanMessage (JStr "What is 3 times 4?")].

(** The last state of [values] ends in a message without tool calls. *)
Definition settled (values : list AgentState) : Prop :=
  exists final m,
    last_item values = Some final /\ last_item final = Some m
    /\ pending_tool_calls m = [].

(** A request for a tool that is not registered, and one with a text
    operand where the schema wants an integer. *)
Definition divide_call : ToolCall :=
  {| call_name := "divide";
     call_args := [("a", JInt 1); ("b", JInt 2)];
     call_id := "call_7" |}.

Definition add_text_call : ToolCall :=
  {| call_name := "add";
     call_args := [("a", JStr "one"); ("b", JInt 2)];
     call_id := "call_8" |}.

(** ** Records and sample stores *)

(** A record as [add_conversation] writes it when the agent's reply is text. *)
Record ConversationRecord : Type := {
  timestamp : string;
  user : string;
  agent : string
}.

Definition to_json (r : ConversationRecord) : json :=
  new_record (timestamp r) (user r) (JStr (agent r)).

(** The last [n] items of a list. *)
Definition lastn {A : Type} (n : nat) (l : list A) : list A :=
  skipn (List.length l - n) l.

(** [add_conversation] called once for every turn of a list, in order. *)
Fixpoint add_all (turns : list (string * json)) : Py unit :=
  match turns with
  | [] => ret tt
  | (u, a) :: rest => add_conversation u a ;; add_all rest
  end.

(** The records those calls write when the clock stands at reading [t]. *)
Fixpoint stamped (clk : nat -> string) (t : nat) (turns : list (string * json)) : list json :=
  match turns with
  | [] => []
  | (u, a) :: rest => new_record (clk t) u a :: stamped clk (S t) rest
  end.

Definition sample_clock (n : nat) : string :=
  "2026-01-01T00:00:00." ++ NilEmpty.string_of_uint (Nat.to_uint n).

Definition sample_repr (v : json) : string := "<object>".

(** A machine whose memory object is empty and whose file holds [d]. *)
Definition machine (d : file_state) : State :=
  {| conversation_history := JArr [];
     disk := d;
     writable := true;
     ticks := 0;
     clock := sample_clock;
     stdout := [] |}.

Definition sample_record (n : nat) : json :=
  new_record (sample_clock n) "hello" (JStr "hi there").

(** A storage file that holds 51 records. *)
Definition crowded_document : json :=
  JObj [("conversations", JArr (map sample_record (seq 0 51)));
        ("last_updated", JStr (sample_clock 51))].

(** [keyword.lower() in conv["user"].lower() or ... in conv["agent"].lower()]
    on a record. *)
Definition mentions (keyword : string) (r : ConversationRecord) : bool :=
  contains (lower keyword) (lower (user r)) || contains (lower keyword) (lower (agent r)).


(** The two messages a record is rendered as. *)
Definition render (r : ConversationRecord) : list Message :=
  [HumanMessage (JStr (user r));
   SystemMessage (JStr ("Previous response: " ++ agent r))].

(** The messages of the last values streamed, pretty-printed in order. *)
Definition printed (values : list AgentState) : list event :=
  flat_map (fun s => match last_item s with
                     | Some m => [PrettyPrint m]
                     | None => []
                     end) values.

Definition with_events (es : list event) (st : State) : State :=
  mkState (conversation_history st) (disk st) (writable st) (ticks st) (clock st)
          (stdout st ++ es).

(** The document [save_memory] writes from a machine. *)
Definition saved_document (st : State) : json :=
  JObj [("conversations", conversation_history st);
        ("last_updated", JStr (clock st (ticks st)))].

(** The machine after a successful [save_memory]. *)
Definition saved (st : State) : State :=
  mkState (conversation_history st) (Document (saved_document st)) (writable st)
          (S (ticks st)) (clock st) (stdout st ++ [FileWrite (saved_document st)]).

(** A memory that holds two records. *)
Definition two_records : list ConversationRecord :=
  [ {| timestamp := "2026-01-01T09:00:00"; user := "What is 3 times 4?";
       agent := "3 times 4 is 12" |};
    {| timestamp := "2026-01-01T09:05:00"; user := "Say FOO twice";
       agent := "Foo foo" |} ].

Definition two_record_machine : State :=
  with_history (JArr (map to_json two_records)) (machine Absent).

(** Fifty-one turns, numbered from 0. *)
Definition numbered_turn (n : nat) : string * json :=
  (("question " ++ NilEmpty.string_of_uint (Nat.to_uint n))%string,
   JStr ("answer " ++ NilEmpty.string_of_uint (Nat.to_uint n))).

Definition fifty_one_turns : list (string * json) := map numbered_turn (seq 0 51).


(** Every value of [values] is the one before it, from [state] on, with
    messages added at the end. *)
Fixpoint grows_by_append (state : AgentState) (values : list AgentState) : Prop :=
  match values with
  | [] => True
  | state' :: rest =>
      (exists update, state' = state ++ update) /\ grows_by_append state' rest
  end.

(** ** The store as a session sees it *)

(** The history is a list of at most 50 items. *)
Definition within_cap (h : json) : Prop :=
  exists items, h = JArr items /\ (List.length items <= 50)%nat.

(** What [load_memory] would take from the storage file is within the cap:
    its [conversations] entry when the document is a dict, nothing at all
    when the file is absent or does not load. *)
Definition file_within_cap (d : file_state) : Prop :=
  match d with
  | Document (JObj fields) =>
      match dict_get fields "conversations" with
      | Some convs => within_cap convs
      | None => True
      end
  | _ => True
  end.

Definition healthy (st : State) : Prop :=
  within_cap (conversation_history st) /\ file_within_cap (disk st).

(** The operations a session performs on the memory object. *)
Inductive memory_op : Type :=
| OpLoad
| OpSave
| OpAdd (user_input : string) (agent_response : json)
| OpClear
| OpSearch (keyword : string)
| OpContext (limit : Z).

Section Session.

Variable repr_value : json -> string.

Definition run_op (op : memory_op) : Py unit :=
  match op with
  | OpLoad => load_memory
  | OpSave => save_memory
  | OpAdd u a => add_conversation u a
  | OpClear => clear_memory
  | OpSearch keyword => _ <- search_memory keyword ;; ret tt
  | OpContext limit => _ <- get_context_messages repr_value limit ;; ret tt
  end.

(** The machine after a run of operations, each one allowed to raise (the
    loop of [main] catches the exception and goes on). *)
Definition after_ops (ops : list memory_op) (st : State) : State :=
  fold_left (fun s op => snd (run_op op s)) ops st.

End Session.

(** A statement that leaves the machine as it found it, raise or not. *)
Definition read_only {A : Type} (c : Py A) : Prop := forall st, snd (c st) = st.


(** A model that asks for [multiply(3, 4)] whatever it is told. *)
Definition insistent_model (messages : list Message) : Message + PyExn :=
  inl (AIMessage (JStr "") [multiply_3_4]).

(** ** The environment check at import *)

Definition required_variables : list string :=
  ["AZURE_ENDPOINT"; "AZURE_VERSION"; "AZURE_CHAT_DEPLOYMENT"; "AZURE_KEY"].

(** Truth value of what [os.getenv] returns: [None] and the empty text are
    false. *)
Definition env_truthy (v : option string) : bool :=
  match v with
  | Some s => negb (String.eqb s "")
  | None => false
  end.

(** [if not all([...]): raise EnvironmentError(...)]; [EnvironmentError] is
    Python's [OSError]. *)
Definition check_environment (getenv : string -> option string) : unit + PyExn :=
  if negb (forallb env_truthy (map getenv required_variables))
  then inr OSError
  else inl tt.

(** ** The command loop of [main] *)

(** What the prompt receives: a line, the end of the input, or Ctrl-C. *)
Inductive keyboard : Type :=
| Typed (text : string)
| EndOfInput
| Interrupt.

(** What can be raised inside the loop of [main]: the exceptions of the
    memory and the graph, and those of [input] and [datetime.fromisoformat]. *)
Inductive Fault : Type :=
| FromPy (e : PyExn)
| ValueError
| EOFError
| KeyboardInterrupt.

(** The lines [main] and [show_recent_conversations] print themselves. *)
Inductive line : Type :=
| SayTitle
| SayCommands
| SayDoubleRule
| SayGoodbye (after_newline : bool)
| SayRecent (ts : string) (user_text : string)
| SayAgent (text : string)
| SayRule
| SayResults (results : list json)
| SayNoMatches
| SayCleared
| SayAgentError (e : Fault).

Inductive control : Type := KeepGoing | Stop.

Record Session : Type := mkSession {
  world : State;
  terminal : list line
}.

Definition Cli (A : Type) : Type := Session -> (A + Fault) * Session.

Definition cli_ret {A : Type} (a : A) : Cli A := fun ss => (inl a, ss).

Definition cli_raise {A : Type} (e : Fault) : Cli A := fun ss => (inr e, ss).

Definition cli_bind {A B : Type} (c : Cli A) (k : A -> Cli B) : Cli B :=
  fun ss =>
    match c ss with
    | (inl a, ss') => k a ss'
    | (inr e, ss') => (inr e, ss')
    end.

(** A statement of the memory or the graph run inside the loop. *)
Definition lift {A : Type} (c : Py A) : Cli A :=
  fun ss =>
    match c (world ss) with
    | (inl a, st') => (inl a, mkSession st' (terminal ss))
    | (inr e, st') => (inr (FromPy e), mkSession st' (terminal ss))
    end.

Definition say (l : line) : Cli unit :=
  fun ss => (inl tt, mkSession (world ss) (terminal ss ++ [l])).

Declare Scope cli_scope.
Delimit Scope cli_scope with cli.
Notation "x <- c ;; k" := (cli_bind c (fun x => k))
  (at level 61, c at next level, right associativity) : cli_scope.
Notation "c ;; k" := (cli_bind c (fun _ => k))
  (at level 61, right associativity) : cli_scope.

(** *** Text operations of the loop *)

(** The ASCII characters [str.strip] removes. *)
Definition is_space (c : ascii) : bool :=
  let n := nat_of_ascii c in
  (((9 <=? n) && (n <=? 13)) || ((28 <=? n) && (n <=? 32)))%nat.

Fixpoint lstrip (s : string) : string :=
  match s with
  | EmptyString => EmptyString
  | String c rest => if is_space c then lstrip rest else s
  end.

Fixpoint rstrip (s : string) : string :=
  match s with
  | EmptyString => EmptyString
  | String c rest =>
      match rstrip rest with
      | EmptyString => if is_space c then EmptyString else String c EmptyString
      | kept => String c kept
      end
  end.

Definition strip (s : string) : string := rstrip (lstrip s).

(** [s[n:]] and [s[:n]] on text. *)
Fixpoint string_drop (n : nat) (s : string) : string :=
  match n, s with
  | O, _ => s
  | S n', EmptyString => EmptyString
  | S n', String _ rest => string_drop n' rest
  end.

Fixpoint string_take (n : nat) (s : string) : string :=
  match n, s with
  | O, _ => EmptyString
  | S n', EmptyString => EmptyString
  | S n', String c rest => String c (string_take n' rest)
  end.

Definition quit_words : list string := ["quit"; "exit"; "bye"].

(** [user_prompt.lower() in {"quit", "exit", "bye"}]. *)
Definition is_quit (user_prompt : string) : bool :=
  existsb (String.eqb (lower user_prompt)) quit_words.

(** *** show_recent_conversations and the loop body *)

Section Main.

Variable repr_value : json -> string.

(** [datetime.fromisoformat(s).strftime("%Y-%m-%d %H:%M")] on text: the
    rendering, or [None] where [fromisoformat] rejects the text. *)
Variable strftime_iso : string -> option string.

Variable model_invoke : list Message -> Message + PyExn.
Variable tool_node : AgentState -> list Message + PyExn.
Variable steps : nat.

Definition fromisoformat_strftime (v : json) : Cli string :=
  match v with
  | JStr s =>
      match strftime_iso s with
      | Some ts => cli_ret ts
      | None => cli_raise ValueError
      end
  | _ => cli_raise (FromPy TypeError)
  end.

(** [v[:120]]. *)
Definition first_120 (v : json) : Cli json :=
  match v with
  | JStr s => cli_ret (JStr (string_take 120 s))
  | JArr l => cli_ret (JArr (firstn 120 l))
  | _ => cli_raise (FromPy TypeError)
  end.

Fixpoint show_loop (window : list json) : Cli unit :=
  match window with
  | [] => cli_ret tt
  | conv :: rest =>
      (stamp <- lift (subscript conv "timestamp") ;;
       ts <- fromisoformat_strftime stamp ;;
       u <- lift (subscript conv "user") ;;
       say (SayRecent ts (format_value repr_value u)) ;;
       a <- lift (subscript conv "agent") ;;
       cut <- first_120 a ;;
       say (SayAgent (format_value repr_value cut)) ;;
       say SayRule ;;
       show_loop rest)%cli
  end.

Definition show_recent_conversations (limit : Z) : Cli unit :=
  (h <- lift get_history ;;
   window <- lift (py_iter_slice_from (- limit) h) ;;
   show_loop window)%cli.

(** [input("You: ")]: the line read, or the exception raised at the prompt;
    the prompt text itself is not kept among the lines. *)
Definition input (key : keyboard) : Cli string :=
  match key with
  | Typed text => cli_ret text
  | EndOfInput => cli_raise EOFError
  | Interrupt => cli_raise KeyboardInterrupt
  end.

(** The body of the [try] in the loop, from the commands on. *)
Definition dispatch (user_prompt : string) : Cli control :=
  if is_quit user_prompt then
    (say (SayGoodbye false) ;; cli_ret Stop)%cli
  else if String.eqb user_prompt "memory" then
    (show_recent_conversations 5 ;; cli_ret KeepGoing)%cli
  else if String.prefix "search " user_prompt then
    (results <- lift (search_memory (string_drop 7 user_prompt)) ;;
     say (match results with
          | [] => SayNoMatches
          | _ :: _ => SayResults results
          end) ;;
     cli_ret KeepGoing)%cli
  else if String.eqb user_prompt "clear memory" then
    (lift (set_history (JArr [])) ;;
     lift save_memory ;;
     say SayCleared ;;
     cli_ret KeepGoing)%cli
  else if String.eqb user_prompt "" then
    cli_ret KeepGoing
  else
    (lift (main_turn repr_value model_invoke tool_node steps user_prompt) ;;
     cli_ret KeepGoing)%cli.

(** One pass of [while True]: the [try] body and its two handlers. *)
Definition main_iteration (key : keyboard) : Cli control :=
  fun ss =>
    match (text <- input key ;; dispatch (strip text))%cli ss with
    | (inl c, ss') => (inl c, ss')
    | (inr KeyboardInterrupt, ss') => (say (SayGoodbye true) ;; cli_ret Stop)%cli ss'
    | (inr e, ss') => (say (SayAgentError e) ;; cli_ret KeepGoing)%cli ss'
    end.

Inductive loop_end : Type :=
| Exited
| Crashed (e : Fault)
| StillRunning.

(** The head of the keys still to come; an exhausted input keeps
    answering with its end. *)
Definition next_key (keys : list keyboard) : keyboard * list keyboard :=
  match keys with
  | [] => (EndOfInput, [])
  | key :: rest => (key, rest)
  end.

(** The [while True] loop, for at most [rounds] passes. *)
Fixpoint main_loop (rounds : nat) (keys : list keyboard) (ss : Session)
  : loop_end * Session :=
  match rounds with
  | O => (StillRunning, ss)
  | S rounds' =>
      match main_iteration (fst (next_key keys)) ss with
      | (inl Stop, ss') => (Exited, ss')
      | (inl KeepGoing, ss') => main_loop rounds' (snd (next_key keys)) ss'
      | (inr e, ss') => (Crashed e, ss')
      end
  end.

(** [main()]: a new memory object, the banner, the loop. *)
Definition main (rounds : nat) (keys : list keyboard) (ss : Session)
  : loop_end * Session :=
  match (lift init_memory ;; say SayTitle ;; say SayCommands ;; say SayDoubleRule)%cli ss with
  | (inl _, ss') => main_loop rounds keys ss'
  | (inr e, ss') => (Crashed e, ss')
  end.

End Main.



(** A statement of the loop that never raises KeyboardInterrupt. *)
Definition tame {A : Type} (c : Cli A) : Prop :=
  forall ss, fst (c ss) <> inr KeyboardInterrupt.




(** A branch of the loop body that asks for another pass when it returns
    and never raises KeyboardInterrupt. *)
Definition keeps_going (c : Cli control) : Prop :=
  forall ss,
    match c ss with
    | (inl ctl, _) => ctl = KeepGoing
    | (inr e, _) => e <> KeyboardInterrupt
    end.



(** ** Plain ASCII text *)








(** * Properties *)

(** ** Lists and slices *)

Lemma last_item_app {A : Type} (l : list A) (x : A) : last_item (l ++ [x]) = Some x.
Proof.
  induction l as [|y l IH]; [reflexivity|].
  simpl. destruct (l ++ [x]) eqn:E; [destruct l; discriminate|exact IH].
Qed.

Lemma last_item_cons {A : Type} (x : A) (l : list A) :
  l <> [] -> last_item (x :: l) = last_item l.
Proof. destruct l; [congruence|reflexivity]. Qed.

Lemma has_tool_calls_true (m : Message) :
  has_tool_calls m = true <-> pending_tool_calls m <> [].
Proof.
  unfold has_tool_calls. destruct (pending_tool_calls m); split; congruence.
Qed.

Lemma has_tool_calls_false (m : Message) :
  has_tool_calls m = false <-> pending_tool_calls m = [].
Proof.
  unfold has_tool_calls. destruct (pending_tool_calls m); split; congruence.
Qed.

(** ** The tools *)

(** C8: for all integers [a] and [b], [add] returns [a + b], [subtract]
    returns [a - b] and [multiply] returns [a * b], and these are the
    functions registered in [TOOLS], in that order. *)
Theorem tools_compute_sum_difference_product (a b : Z) :
  add a b = (a + b)%Z /\ subtract a b = (a - b)%Z /\ multiply a b = (a * b)%Z
  /\ map (fun t => (tool_name t, tool_func t a b)) TOOLS
     = [("add", (a + b)%Z); ("subtract", (a - b)%Z); ("multiply", (a * b)%Z)].
Proof. repeat split. Qed.

(** ** The loop *)

Section GraphFacts.

Variable model_invoke : list Message -> Message + PyExn.
Variable tool_node : AgentState -> list Message + PyExn.

Lemma should_continue_spec (state : AgentState) :
  should_continue state = inl Continue
  <-> exists m, last_item state = Some m /\ pending_tool_calls m <> [].
Proof.
  unfold should_continue. destruct (last_item state) as [m|].
  - destruct (has_tool_calls m) eqn:E; split.
    + intros _. exists m. split; [reflexivity|]. now apply has_tool_calls_true.
    + reflexivity.
    + discriminate.
    + intros (m' & Hm & Hp). injection Hm as <-.
      apply has_tool_calls_true in Hp. congruence.
  - split; [discriminate|]. intros (m & Hm & _). discriminate.
Qed.

Lemma agent_step (state : AgentState) (response : Message) :
  model_invoke (model_input state) = inl response ->
  graph_step model_invoke tool_node agent_calling state
  = inl (if has_tool_calls response then tools else END, state ++ [response]).
Proof.
  intros H. unfold graph_step, model_call. rewrite H.
  unfold add_messages, should_continue. rewrite last_item_app.
  destruct (has_tool_calls response); reflexivity.
Qed.

Lemma agent_step_inv (state state' : AgentState) (next : Node) :
  graph_step model_invoke tool_node agent_calling state = inl (next, state') ->
  exists response,
    model_invoke (model_input state) = inl response
    /\ state' = state ++ [response]
    /\ next = (if has_tool_calls response then tools else END).
Proof.
  unfold graph_step, model_call.
  destruct (model_invoke (model_input state)) as [response|e] eqn:E; [|discriminate].
  unfold add_messages, should_continue. rewrite last_item_app.
  intros H. exists response.
  destruct (has_tool_calls response); injection H as <- <-; repeat split.
Qed.

Lemma tools_step_inv (state state' : AgentState) (next : Node) :
  graph_step model_invoke tool_node tools state = inl (next, state') ->
  exists update,
    tool_node state = inl update /\ state' = state ++ update /\ next = agent_calling.
Proof.
  unfold graph_step. destruct (tool_node state) as [update|e]; [|discriminate].
  intros H. injection H as <- <-. now exists update.
Qed.

End GraphFacts.

Section LoopFacts.

Variable model_invoke : list Message -> Message + PyExn.
Variable tool_node : AgentState -> list Message + PyExn.

Let step := graph_step model_invoke tool_node.
Let stream := stream_from model_invoke tool_node.

Lemma settled_cons (s : AgentState) (values : list AgentState) :
  settled values -> settled (s :: values).
Proof.
  intros (final & m & Hl & Hm & Hp). exists final, m.
  rewrite last_item_cons; [auto|]. intros ->. discriminate.
Qed.

Lemma stream_from_S (fuel : nat) (node : Node) (state : AgentState) :
  node <> END ->
  stream (S fuel) node state
  = match step node state with
    | inr e => ([], Raised e)
    | inl (next, state') =>
        let (values, how) := stream fuel next state' in (state' :: values, how)
    end.
Proof. destruct node; [reflexivity|reflexivity|congruence]. Qed.

Lemma stream_from_END (fuel : nat) (state : AgentState) :
  stream fuel END state = ([], Finished).
Proof. destruct fuel; reflexivity. Qed.

Lemma stream_from_finished (fuel : nat) :
  forall node state values,
    node <> END ->
    stream fuel node state = (values, Finished) ->
    settled values.
Proof.
  induction fuel as [|fuel IH]; intros node state values Hnode H.
  - destruct node; simpl in H; congruence.
  - rewrite (stream_from_S _ _ _ Hnode) in H.
    destruct (step node state) as [[next state']|e] eqn:Hstep; [|discriminate].
    destruct (stream fuel next state') as [vs how] eqn:Hrest.
    injection H as <- ->.
    destruct node; [| |congruence].
    + apply agent_step_inv in Hstep as (response & _ & -> & ->).
      destruct (has_tool_calls response) eqn:Hcalls.
      * apply settled_cons. apply (IH tools (state ++ [response])); [discriminate|exact Hrest].
      * rewrite stream_from_END in Hrest. injection Hrest as <-.
        exists (state ++ [response]), response. split; [reflexivity|].
        split; [apply last_item_app|now apply has_tool_calls_false].
    + apply tools_step_inv in Hstep as (update & _ & -> & ->).
      apply settled_cons. apply (IH agent_calling (state ++ update)); [discriminate|exact Hrest].
Qed.

Lemma stream_from_more_fuel (fuel : nat) :
  forall node state values,
    stream fuel node state = (values, Finished) ->
    stream (S fuel) node state = (values, Finished).
Proof.
  induction fuel as [|fuel IH]; intros node state values H.
  - destruct node; simpl in H; try discriminate. injection H as <-. reflexivity.
  - destruct node; [| |exact H].
    all: rewrite stream_from_S in H by discriminate;
      rewrite (stream_from_S (S fuel)) by discriminate;
      match goal with |- context [step ?n ?st] => destruct (step n st) as [[next state']|e] end;
      [|discriminate];
      destruct (stream fuel next state') as [vs how] eqn:Hrest;
      injection H as <- ->; now rewrite (IH _ _ _ Hrest).
Qed.

(** A reply without tool calls ends the run at once, and it is the last
    message of the last value streamed. *)
Lemma final_answer_ends_run (fuel : nat) (inputs : AgentState) (response : Message) :
  model_invoke (model_input inputs) = inl response ->
  pending_tool_calls response = [] ->
  app_stream model_invoke tool_node (S fuel) inputs
  = ([inputs; inputs ++ [response]], Finished).
Proof.
  intros Hm Hp. unfold app_stream.
  pose proof (stream_from_S fuel agent_calling inputs) as E.
  unfold stream, step in E. rewrite E by discriminate.
  rewrite (agent_step model_invoke tool_node _ _ Hm).
  apply has_tool_calls_false in Hp. rewrite Hp.
  now rewrite (stream_from_END fuel).
Qed.

End LoopFacts.

(** C1: the loop goes on to tool dispatch exactly when the last message,
    the model's response, carries at least one tool call (and ends the run
    exactly when it carries none), and the last message of a run that has
    finished has no tool call left; a response without tool calls finishes
    the run with that response as its last message. *)
Theorem loop_continues_iff_tool_calls
    (model_invoke : list Message -> Message + PyExn)
    (tool_node : AgentState -> list Message + PyExn) :
  (forall state,
      should_continue state = inl Continue
      <-> exists m, last_item state = Some m /\ pending_tool_calls m <> [])
  /\ (forall state response,
        model_invoke (model_input state) = inl response ->
        exists next,
          graph_step model_invoke tool_node agent_calling state
          = inl (next, state ++ [response])
          /\ (next = tools <-> pending_tool_calls response <> [])
          /\ (next = END <-> pending_tool_calls response = []))
  /\ (forall fuel inputs values,
        app_stream model_invoke tool_node fuel inputs = (values, Finished) ->
        settled values)
  /\ (forall fuel inputs response,
        model_invoke (model_input inputs) = inl response ->
        pending_tool_calls response = [] ->
        app_stream model_invoke tool_node (S fuel) inputs
        = ([inputs; inputs ++ [response]], Finished)).
Proof.
  split; [exact should_continue_spec|].
  split; [|split].
  - intros state response H.
    exists (if has_tool_calls response then tools else END).
    split; [now apply agent_step|].
    destruct (has_tool_calls response) eqn:E.
    + apply has_tool_calls_true in E.
      repeat split; try discriminate; try congruence.
    + apply has_tool_calls_false in E.
      repeat split; try discriminate; try congruence.
  - intros fuel inputs values H. unfold app_stream in H.
    destruct (stream_from model_invoke tool_node fuel agent_calling inputs)
      as [vs how] eqn:E.
    injection H as <- ->. apply settled_cons.
    apply (stream_from_finished model_invoke tool_node fuel agent_calling inputs);
      [discriminate|exact E].
  - intros fuel inputs response. apply final_answer_ends_run.
Qed.

Lemma loop_continues_iff_tool_calls_witness :
  app_stream sample_model registry_tool_node 10 sample_inputs
  = (fst (app_stream sample_model registry_tool_node 10 sample_inputs), Finished)
  /\ settled (fst (app_stream sample_model registry_tool_node 10 sample_inputs)).
Proof.
  split; [reflexivity|].
  apply (proj1 (proj2 (proj2
           (loop_continues_iff_tool_calls sample_model registry_tool_node)))
           10%nat sample_inputs).
  reflexivity.
Defined.

(** ** The tools node *)

Lemma registry_tool_node_dispatch (state : AgentState) (content : json)
    (calls : list ToolCall) :
  registry_tool_node (state ++ [AIMessage content calls]) = inl (map tool_result calls).
Proof. unfold registry_tool_node. now rewrite last_item_app. Qed.

Lemma tool_result_failure (call : ToolCall) :
  resolve (call_name call) = None \/ schema_args (call_args call) = None ->
  exists err,
    tool_result call = ToolMessage (JStr (describe err)) (call_id call) StatusError.
Proof.
  unfold tool_result, invoke. intros [H|H].
  - rewrite H. now exists (UnknownTool (call_name call)).
  - destruct (resolve (call_name call)) as [t|].
    + rewrite H. now exists (ArgumentMismatch (call_name call)).
    + now exists (UnknownTool (call_name call)).
Qed.

(** C4: a tool call whose name the registry does not know, or whose
    arguments miss the declared schema, gets a tool message that carries
    the failure indicator and the request identifier; the tools node does
    not raise on it, and the step appends the results to the conversation
    and hands control back to the model. *)
Theorem malformed_tool_call_fed_back (call : ToolCall)
    (model_invoke : list Message -> Message + PyExn)
    (state : AgentState) (content : json) (calls : list ToolCall) :
  resolve (call_name call) = None \/ schema_args (call_args call) = None ->
  In call calls ->
  (exists description,
      tool_result call = ToolMessage (JStr description) (call_id call) StatusError)
  /\ registry_tool_node (state ++ [AIMessage content calls]) = inl (map tool_result calls)
  /\ In (tool_result call) (map tool_result calls)
  /\ graph_step model_invoke registry_tool_node tools (state ++ [AIMessage content calls])
     = inl (agent_calling, (state ++ [AIMessage content calls]) ++ map tool_result calls).
Proof.
  intros Hbad Hin. split; [|split; [|split]].
  - destruct (tool_result_failure call Hbad) as (err & H). now exists (describe err).
  - apply registry_tool_node_dispatch.
  - now apply in_map.
  - unfold graph_step. now rewrite registry_tool_node_dispatch.
Qed.

Lemma malformed_tool_call_fed_back_witness :
  (resolve (call_name divide_call) = None /\ schema_args (call_args add_text_call) = None)
  /\ graph_step sample_model registry_tool_node tools
       (sample_inputs ++ [AIMessage (JStr "") [divide_call; add_text_call]])
     = inl (agent_calling,
            (sample_inputs ++ [AIMessage (JStr "") [divide_call; add_text_call]])
            ++ map tool_result [divide_call; add_text_call])
  /\ tool_result add_text_call
     = ToolMessage (JStr "Error: invalid arguments for add") "call_8" StatusError.
Proof.
  split; [split; reflexivity|].
  split; [|reflexivity].
  apply (malformed_tool_call_fed_back divide_call sample_model sample_inputs (JStr "")
           [divide_call; add_text_call]).
  - left. reflexivity.
  - left. reflexivity.
Defined.

(** ** Loading the memory *)

Lemma load_memory_absent (st : State) :
  disk st = Absent -> load_memory st = (inl tt, st).
Proof. intros H. unfold load_memory, bind, path_exists. rewrite H. reflexivity. Qed.

Lemma load_memory_unreadable (st : State) :
  disk st = Unreadable ->
  load_memory st = (inl tt, with_event (PrintLoadFailed OSError) st).
Proof.
  intros H. unfold load_memory, bind, path_exists, try_except, read_json.
  rewrite H. simpl. rewrite H. reflexivity.
Qed.

Lemma load_memory_garbage (st : State) :
  disk st = Garbage ->
  load_memory st = (inl tt, with_event (PrintLoadFailed JSONDecodeError) st).
Proof.
  intros H. unfold load_memory, bind, path_exists, try_except, read_json.
  rewrite H. simpl. rewrite H. reflexivity.
Qed.

(** A document whose [conversations] entry is a list is taken as it is. *)
Lemma load_memory_records (st : State) (fields : list (string * json))
    (items : list json) :
  disk st = Document (JObj fields) ->
  dict_get fields "conversations" = Some (JArr items) ->
  load_memory st
  = (inl tt, with_event (PrintLoaded (List.length items)) (with_history (JArr items) st)).
Proof.
  intros H Hget.
  unfold load_memory, bind, path_exists, try_except, read_json. rewrite H. simpl.
  rewrite H. simpl. unfold ret. rewrite Hget. reflexivity.
Qed.

Lemma load_memory_returns (st : State) : exists st', load_memory st = (inl tt, st').
Proof.
  destruct (disk st) as [| | |doc] eqn:H.
  - eexists. now apply load_memory_absent.
  - eexists. now apply load_memory_unreadable.
  - eexists. now apply load_memory_garbage.
  - unfold load_memory, bind, path_exists, try_except, read_json. rewrite H. simpl.
    rewrite H.
    destruct doc as [| | | | | |fields]; try (eexists; reflexivity).
    simpl. unfold ret.
    destruct (match dict_get fields "conversations" with
              | Some x => x
              | None => JArr []
              end); eexists; reflexivity.
Qed.

(** C9: [load_memory] returns normally on every machine; when the storage
    file is absent a new memory object has an empty history and nothing is
    reported, and when the file cannot be read or parsed the failure is
    printed and the history is empty as well. *)
Theorem load_memory_never_raises (st : State) :
  (exists st', load_memory st = (inl tt, st'))
  /\ (exists st', init_memory st = (inl tt, st'))
  /\ (disk st = Absent -> init_memory st = (inl tt, with_history (JArr []) st))
  /\ (disk st = Unreadable \/ disk st = Garbage ->
      exists e,
        init_memory st
        = (inl tt, with_event (PrintLoadFailed e) (with_history (JArr []) st))).
Proof.
  split; [apply load_memory_returns|].
  split; [|split].
  - unfold init_memory, bind, set_history.
    apply (load_memory_returns (with_history (JArr []) st)).
  - intros H. unfold init_memory, bind, set_history.
    now rewrite load_memory_absent.
  - intros [H|H]; unfold init_memory, bind, set_history.
    + exists OSError. now rewrite load_memory_unreadable.
    + exists JSONDecodeError. now rewrite load_memory_garbage.
Qed.

Lemma load_memory_never_raises_witness :
  init_memory (machine Absent) = (inl tt, machine Absent)
  /\ (exists e, init_memory (machine Garbage)
                = (inl tt, with_event (PrintLoadFailed e) (machine Garbage)))
  /\ (exists e, init_memory (machine Unreadable)
                = (inl tt, with_event (PrintLoadFailed e) (machine Unreadable))).
Proof.
  split; [|split].
  - apply (proj1 (proj2 (proj2 (load_memory_never_raises (machine Absent))))).
    reflexivity.
  - apply (proj2 (proj2 (proj2 (load_memory_never_raises (machine Garbage))))).
    right. reflexivity.
  - apply (proj2 (proj2 (proj2 (load_memory_never_raises (machine Unreadable))))).
    left. reflexivity.
Defined.

(** ** Slices of the history *)

Lemma slice_from_negative {A : Type} (n : nat) (l : list A) :
  (0 < n)%nat -> slice_from (- Z.of_nat n) l = lastn n l.
Proof.
  intros Hn. unfold slice_from, lastn.
  replace (- Z.of_nat n <? 0)%Z with true by (symmetry; apply Z.ltb_lt; lia).
  f_equal. lia.
Qed.

Lemma slice_from_zero {A : Type} (l : list A) : slice_from 0 l = l.
Proof.
  unfold slice_from. simpl.
  replace (Z.to_nat (Z.min 0 (Z.of_nat (List.length l)))) with 0%nat by lia.
  reflexivity.
Qed.

Lemma lastn_length {A : Type} (n : nat) (l : list A) :
  List.length (lastn n l) = Nat.min n (List.length l).
Proof. unfold lastn. rewrite length_skipn. lia. Qed.

Lemma lastn_all {A : Type} (n : nat) (l : list A) :
  (List.length l <= n)%nat -> lastn n l = l.
Proof.
  intros H. unfold lastn.
  replace (List.length l - n)%nat with 0%nat by lia. reflexivity.
Qed.

(** Evicting before an append does not change what the next eviction keeps. *)
Lemma lastn_app_lastn {A : Type} (n : nat) (l r : list A) :
  lastn n (lastn n l ++ r) = lastn n (l ++ r).
Proof.
  unfold lastn at 1 3. rewrite !length_app, lastn_length.
  unfold lastn.
  set (k := (List.length l - n)%nat).
  assert (Hk : (k <= List.length l)%nat) by (unfold k; lia).
  replace (skipn k l ++ r) with (skipn k (l ++ r)).
  - rewrite skipn_skipn. f_equal. unfold k. lia.
  - rewrite skipn_app. replace (k - List.length l)%nat with 0%nat by lia. reflexivity.
Qed.

Lemma lastn_map {A B : Type} (f : A -> B) (n : nat) (l : list A) :
  lastn n (map f l) = map f (lastn n l).
Proof. unfold lastn. now rewrite length_map, skipn_map. Qed.

(** ** Adding conversations *)

Lemma add_conversation_list (st : State) (items : list json) (u : string) (a : json) :
  conversation_history st = JArr items ->
  add_conversation u a st
  = (inl tt,
     with_history
       (JArr (slice_from (-50) (items ++ [new_record (clock st (ticks st)) u a])))
       (with_ticks (S (ticks st)) st)).
Proof.
  intros H. unfold add_conversation, bind, get_history. rewrite H. reflexivity.
Qed.

Lemma stamped_length (clk : nat -> string) (turns : list (string * json)) :
  forall t, List.length (stamped clk t turns) = List.length turns.
Proof.
  induction turns as [|[u a] rest IH]; intros t; simpl; [reflexivity|now rewrite IH].
Qed.

Lemma add_all_list (turns : list (string * json)) :
  forall st items,
    conversation_history st = JArr items ->
    (List.length items <= 50)%nat ->
    exists st',
      add_all turns st = (inl tt, st')
      /\ conversation_history st'
         = JArr (lastn 50 (items ++ stamped (clock st) (ticks st) turns)).
Proof.
  induction turns as [|[u a] rest IH]; intros st items H Hlen.
  - exists st. split; [reflexivity|].
    simpl. rewrite app_nil_r, lastn_all by exact Hlen. exact H.
  - simpl. unfold bind. rewrite (add_conversation_list st items u a H).
    change (-50)%Z with (- Z.of_nat 50)%Z. rewrite slice_from_negative by lia.
    set (r := new_record (clock st (ticks st)) u a).
    set (st1 := with_history (JArr (lastn 50 (items ++ [r]))) (with_ticks (S (ticks st)) st)).
    destruct (IH st1 (lastn 50 (items ++ [r])) eq_refl) as (st' & Hrun & Hh).
    { rewrite lastn_length. lia. }
    exists st'. split; [exact Hrun|].
    rewrite Hh. simpl. rewrite lastn_app_lastn, <- app_assoc. reflexivity.
Qed.

(** ** Saving and loading *)

Lemma save_memory_writes (st : State) :
  writable st = true -> save_memory st = (inl tt, saved st).
Proof.
  intros H. unfold save_memory, try_except, bind, open_write. rewrite H. reflexivity.
Qed.

Lemma save_memory_fails (st : State) :
  writable st = false ->
  save_memory st = (inl tt, with_event (PrintSaveFailed OSError) st).
Proof.
  intros H. unfold save_memory, try_except, bind, open_write. rewrite H. reflexivity.
Qed.

Lemma init_memory_after_save (st : State) :
  exists st2,
    init_memory (saved st) = (inl tt, st2)
    /\ conversation_history st2 = conversation_history st
    /\ disk st2 = Document (saved_document st).
Proof.
  unfold init_memory, bind, set_history, load_memory, path_exists, try_except,
    read_json, saved, saved_document.
  simpl. destruct (conversation_history st); eexists; (split; [reflexivity|]);
           split; reflexivity.
Qed.



(** ** The cap of fifty records *)

Lemma clear_memory_empties (st : State) :
  exists st', clear_memory st = (inl tt, st') /\ conversation_history st' = JArr [].
Proof.
  unfold clear_memory, bind, set_history.
  destruct (writable st) eqn:H.
  - rewrite save_memory_writes by exact H. eexists. split; reflexivity.
  - rewrite save_memory_fails by exact H. eexists. split; reflexivity.
Qed.

(** C2 as stated fails for [load_memory]: a storage file that holds 51
    records is loaded whole, so the count after the load is 51. *)
Lemma load_memory_exceeds_cap :
  ~ (forall st st' items,
        load_memory st = (inl tt, st') ->
        conversation_history st' = JArr items ->
        (List.length items <= 50)%nat).
Proof.
  intros H.
  specialize (H (machine (Document crowded_document)) _ _
                (load_memory_records (machine (Document crowded_document)) _ _
                   eq_refl eq_refl) eq_refl).
  rewrite length_map, length_seq in H. lia.
Qed.

(** C2, amended: after [add_conversation] the history holds at most 50
    records, whatever it held before, and after the clear command it is
    empty; [load_memory] takes the list of the storage file as it is, so
    the count after a load is the file's; and 51 calls of
    [add_conversation] on an empty memory leave exactly 50 records, the
    2nd to the 51st written, in the order written. *)
Theorem memory_cap_on_add_and_clear :
  (forall st items u a,
      conversation_history st = JArr items ->
      exists st' items',
        add_conversation u a st = (inl tt, st')
        /\ conversation_history st' = JArr items'
        /\ (List.length items' <= 50)%nat)
  /\ (forall st, exists st',
         clear_memory st = (inl tt, st') /\ conversation_history st' = JArr [])
  /\ (forall st fields items,
         disk st = Document (JObj fields) ->
         dict_get fields "conversations" = Some (JArr items) ->
         exists st',
           load_memory st = (inl tt, st') /\ conversation_history st' = JArr items)
  /\ (forall st turns,
         conversation_history st = JArr [] ->
         List.length turns = 51%nat ->
         exists st',
           add_all turns st = (inl tt, st')
           /\ conversation_history st'
              = JArr (skipn 1 (stamped (clock st) (ticks st) turns))
           /\ List.length (skipn 1 (stamped (clock st) (ticks st) turns)) = 50%nat).
Proof.
  split; [|split; [|split]].
  - intros st items u a H. rewrite (add_conversation_list st items u a H).
    eexists. eexists. split; [reflexivity|]. split; [reflexivity|].
    change (-50)%Z with (- Z.of_nat 50)%Z. rewrite slice_from_negative by lia.
    rewrite lastn_length. lia.
  - exact clear_memory_empties.
  - intros st fields items H Hget. rewrite (load_memory_records st fields items H Hget).
    eexists. split; reflexivity.
  - intros st turns H Hlen.
    destruct (add_all_list turns st [] H) as (st' & Hrun & Hh); [simpl; lia|].
    exists st'. split; [exact Hrun|].
    simpl in Hh. unfold lastn in Hh. rewrite stamped_length, Hlen in Hh.
    split; [exact Hh|]. rewrite length_skipn, stamped_length, Hlen. reflexivity.
Qed.

Lemma memory_cap_on_add_and_clear_witness :
  exists st',
    add_all fifty_one_turns (machine Absent) = (inl tt, st')
    /\ conversation_history st'
       = JArr (skipn 1 (stamped sample_clock 0 fifty_one_turns))
    /\ List.length (skipn 1 (stamped sample_clock 0 fifty_one_turns)) = 50%nat.
Proof.
  apply (proj2 (proj2 (proj2 memory_cap_on_add_and_clear)) (machine Absent) fifty_one_turns).
  - reflexivity.
  - reflexivity.
Defined.

(** ** Text search *)




(** *** Lower-casing of ASCII text *)









Lemma matches_record (keyword : string) (r : ConversationRecord) (st : State) :
  matches keyword (to_json r) st = (inl (mentions keyword r), st).
Proof.
  unfold matches, mentions, to_json, new_record, bind. simpl.
  destruct (contains (lower keyword) (lower (user r))); reflexivity.
Qed.

Lemma filterM_records (keyword : string) (rs : list ConversationRecord) (st : State) :
  filterM (matches keyword) (map to_json rs) st
  = (inl (map to_json (filter (mentions keyword) rs)), st).
Proof.
  induction rs as [|r rs IH]; [reflexivity|].
  simpl. unfold bind at 1. rewrite matches_record.
  unfold bind at 1. rewrite IH. unfold ret.
  destruct (mentions keyword r); reflexivity.
Qed.




(** ** The context window *)

Section ContextFacts.

Variable repr_value : json -> string.

Lemma context_loop_records (rs : list ConversationRecord) :
  forall (acc : list Message) (st : State),
    context_loop repr_value (map to_json rs) acc st
    = (inl (acc ++ flat_map render rs), st).
Proof.
  induction rs as [|r rs IH]; intros acc st.
  - simpl. now rewrite app_nil_r.
  - simpl. unfold bind. simpl. rewrite IH. now rewrite <- !app_assoc.
Qed.

(** With a positive limit the window is the last [limit] records, each
    rendered as a user message and a system message, oldest first. *)
Lemma get_context_messages_last_records (st : State) (rs : list ConversationRecord)
    (limit : nat) :
  (0 < limit)%nat ->
  conversation_history st = JArr (map to_json rs) ->
  get_context_messages repr_value (Z.of_nat limit) st
  = (inl (flat_map render (lastn limit rs)), st).
Proof.
  intros Hl H. unfold get_context_messages, bind, get_history. rewrite H. simpl.
  rewrite slice_from_negative by exact Hl.
  rewrite lastn_map. apply (context_loop_records _ []).
Qed.

(** With limit 0 the slice [[-0:]] is the whole history. *)
Lemma get_context_messages_limit_zero (st : State) (rs : list ConversationRecord) :
  conversation_history st = JArr (map to_json rs) ->
  get_context_messages repr_value 0 st = (inl (flat_map render rs), st).
Proof.
  intros H. unfold get_context_messages, bind, get_history. rewrite H. simpl.
  rewrite slice_from_zero. apply (context_loop_records _ []).
Qed.

End ContextFacts.

(** C7: at limit 0 on a memory of two records [get_context_messages]
    returns the four messages of both records, where the last 0 records
    render as no message at all; at limit 1 it returns the two messages of
    the last record, as the claim says. *)
Theorem get_context_messages_zero_limit_returns_all :
  get_context_messages sample_repr 0 two_record_machine
  = (inl (flat_map render two_records), two_record_machine)
  /\ flat_map render (lastn 0 two_records) = []
  /\ List.length (flat_map render two_records) = 4%nat
  /\ get_context_messages sample_repr 1 two_record_machine
     = (inl (flat_map render (lastn 1 two_records)), two_record_machine).
Proof.
  split; [exact (get_context_messages_limit_zero sample_repr two_record_machine two_records eq_refl)|].
  split; [reflexivity|]. split; [reflexivity|].
  exact (get_context_messages_last_records sample_repr two_record_machine two_records 1
           (Nat.lt_0_succ 0) eq_refl).
Qed.

(** ** Capturing a run into the memory *)

Lemma with_events_cons (e : event) (es : list event) (st : State) :
  with_events es (with_event e st) = with_events (e :: es) st.
Proof. unfold with_events, with_event. simpl. now rewrite <- app_assoc. Qed.


Lemma last_item_none {A : Type} (l : list A) : last_item l = None -> l = [].
Proof.
  induction l as [|x l IH]; [reflexivity|].
  destruct l as [|y l]; [discriminate|]. intros H. apply IH in H. discriminate.
Qed.

Lemma capture_loop_last (values : list AgentState) :
  forall (default : json) (st : State) (final : AgentState) (m : Message),
    Forall (fun s => s <> []) values ->
    last_item values = Some final ->
    last_item final = Some m ->
    capture_loop values default st
    = (inl (message_content m), with_events (printed values) st).
Proof.
  induction values as [|s rest IH]; intros default st final m Hne Hlast Hm;
    [discriminate|].
  inversion Hne as [|? ? Hs Hrest]; subst.
  destruct rest as [|s2 rest].
  - injection Hlast as ->. simpl. unfold bind, print. rewrite Hm. simpl.
    unfold with_events, with_event. simpl. reflexivity.
  - change (last_item (s :: s2 :: rest)) with (last_item (s2 :: rest)) in Hlast.
    destruct (last_item s) as [m0|] eqn:Hs0; [|now apply last_item_none in Hs0].
    change (capture_loop (s :: s2 :: rest) default st)
      with ((message <- of_option (last_item s) IndexError ;;
             print (PrettyPrint message) ;;
             capture_loop (s2 :: rest) (message_content message)) st).
    rewrite Hs0. unfold bind at 1 2. simpl of_option. unfold ret at 1, print at 1.
    rewrite (IH _ _ final m Hrest Hlast Hm), with_events_cons.
    unfold printed. simpl flat_map. now rewrite Hs0.
Qed.




(** ** The conversation state during a run *)

Lemma bind_inl {A B : Type} (c : Py A) (k : A -> Py B) (st st' : State) (b : B) :
  bind c k st = (inl b, st') ->
  exists a st1, c st = (inl a, st1) /\ k a st1 = (inl b, st').
Proof.
  unfold bind. destruct (c st) as [[a|e] st1]; [|discriminate].
  intros H. now exists a, st1.
Qed.

Lemma new_HumanMessage_inl (content : json) (st st' : State) (m : Message) :
  new_HumanMessage content st = (inl m, st') -> m = HumanMessage content.
Proof.
  unfold new_HumanMessage. destruct (valid_content content); [|discriminate].
  intros H. now injection H as <- _.
Qed.

Section StateFacts.

Variable repr_value : json -> string.
Variable model_invoke : list Message -> Message + PyExn.
Variable tool_node : AgentState -> list Message + PyExn.

Lemma stream_from_grows (fuel : nat) :
  forall node state values how,
    stream_from model_invoke tool_node fuel node state = (values, how) ->
    grows_by_append state values.
Proof.
  induction fuel as [|fuel IH]; intros node state values how H.
  - destruct node; simpl in H; injection H as <- _; exact I.
  - destruct node; [| |simpl in H; injection H as <- _; exact I].
    all: rewrite stream_from_S in H by discriminate;
      match type of H with
      | context [graph_step _ _ ?n ?s] =>
          destruct (graph_step model_invoke tool_node n s) as [[next state']|e] eqn:Hstep
      end;
      [|injection H as <- _; exact I];
      destruct (stream_from model_invoke tool_node fuel next state') as [vs how'] eqn:Hrest;
      injection H as <- _; simpl; split; [|exact (IH _ _ _ _ Hrest)].
    + apply agent_step_inv in Hstep as (response & _ & -> & _). now exists [response].
    + apply tools_step_inv in Hstep as (update & _ & -> & _). now exists update.
Qed.

Lemma context_loop_extends (window : list json) :
  forall acc st out st',
    context_loop repr_value window acc st = (inl out, st') ->
    exists extra, out = acc ++ extra.
Proof.
  induction window as [|conv rest IH]; intros acc st out st' H.
  - injection H as <- _. exists []. now rewrite app_nil_r.
  - simpl in H.
    apply bind_inl in H as (u & st1 & _ & H).
    apply bind_inl in H as (hm & st2 & _ & H).
    apply bind_inl in H as (a & st3 & _ & H).
    apply bind_inl in H as (sm & st4 & _ & H).
    apply IH in H as (extra & ->).
    exists ([hm] ++ [sm] ++ extra). now rewrite <- !app_assoc.
Qed.

(** The context [get_context_messages] returns is empty or starts with a
    user message. *)
Lemma context_starts_with_user (limit : Z) (st st' : State) (context : list Message) :
  get_context_messages repr_value limit st = (inl context, st') ->
  context = [] \/ exists c rest, context = HumanMessage c :: rest.
Proof.
  unfold get_context_messages. intros H.
  apply bind_inl in H as (h & st1 & _ & H).
  apply bind_inl in H as (window & st2 & _ & H).
  destruct window as [|conv rest].
  - left. now injection H as <- _.
  - right. simpl in H.
    apply bind_inl in H as (u & st3 & _ & H).
    apply bind_inl in H as (hm & st4 & Hhm & H).
    apply bind_inl in H as (a & st5 & _ & H).
    apply bind_inl in H as (sm & st6 & _ & H).
    apply new_HumanMessage_inl in Hhm as ->.
    apply context_loop_extends in H as (extra & ->).
    now exists u, ([sm] ++ extra).
Qed.

Lemma turn_inputs_start_with_user (user_prompt : string) (st st' : State)
    (inputs : AgentState) :
  turn_inputs repr_value user_prompt st = (inl inputs, st') ->
  (exists c rest, inputs = HumanMessage c :: rest)
  /\ last_item inputs = Some (HumanMessage (JStr user_prompt)).
Proof.
  unfold turn_inputs. intros H.
  apply bind_inl in H as (context & st1 & Hctx & H).
  apply bind_inl in H as (hm & st2 & Hhm & H).
  apply new_HumanMessage_inl in Hhm as ->. injection H as <- _.
  split; [|apply last_item_app].
  apply context_starts_with_user in Hctx as [->|(c & rest & ->)].
  - now exists (JStr user_prompt), [].
  - now exists c, (rest ++ [HumanMessage (JStr user_prompt)]).
Qed.

End StateFacts.

(** C3 as stated fails: the state [main] builds for "What is 3 times 4?" on
    an empty memory is the user message alone, and it is the first value
    the run streams; its first element is not the system message. *)
Lemma streamed_state_lacks_system_message :
  ~ (forall st user_prompt inputs st' values how s,
        turn_inputs sample_repr user_prompt st = (inl inputs, st') ->
        app_stream sample_model registry_tool_node 10 inputs = (values, how) ->
        In s values ->
        exists rest, s = system_message :: rest).
Proof.
  intros H.
  destruct (H (machine Absent) "What is 3 times 4?" sample_inputs (machine Absent)
              _ _ sample_inputs eq_refl eq_refl (or_introl eq_refl))
    as (rest & Habs).
  discriminate Habs.
Qed.

(** C3, amended: the list [model_call] hands to the model is the system
    message followed by the whole state, unchanged; the state itself opens
    with a user message, the first one of the context or the new prompt,
    and ends with the new prompt when the run starts; and every value the
    run streams is the value before it with messages added at the end, the
    first value being the input state. *)
Theorem system_message_heads_model_input
    (model_invoke : list Message -> Message + PyExn)
    (tool_node : AgentState -> list Message + PyExn) :
  (forall state,
      model_input state = system_message :: state
      /\ model_call model_invoke state
         = match model_invoke (system_message :: state) with
           | inl response => inl [response]
           | inr e => inr e
           end)
  /\ (forall repr_value user_prompt st st' inputs,
        turn_inputs repr_value user_prompt st = (inl inputs, st') ->
        (exists c rest, inputs = HumanMessage c :: rest)
        /\ last_item inputs = Some (HumanMessage (JStr user_prompt)))
  /\ (forall fuel inputs values how,
        app_stream model_invoke tool_node fuel inputs = (values, how) ->
        exists rest, values = inputs :: rest /\ grows_by_append inputs rest).
Proof.
  split; [intros state; split; reflexivity|].
  split.
  - intros repr_value user_prompt st st' inputs. apply turn_inputs_start_with_user.
  - intros fuel inputs values how H. unfold app_stream in H.
    destruct (stream_from model_invoke tool_node fuel agent_calling inputs)
      as [vs how'] eqn:E.
    injection H as <- _. exists vs. split; [reflexivity|].
    exact (stream_from_grows model_invoke tool_node fuel _ _ _ _ E).
Qed.

Lemma system_message_heads_model_input_witness :
  turn_inputs sample_repr "What is 3 times 4?" (machine Absent)
  = (inl sample_inputs, machine Absent)
  /\ (exists rest,
        fst (app_stream sample_model registry_tool_node 10 sample_inputs)
        = sample_inputs :: rest
        /\ grows_by_append sample_inputs rest).
Proof.
  split; [reflexivity|].
  apply (proj2 (proj2 (system_message_heads_model_input sample_model registry_tool_node))
           10%nat sample_inputs _ Finished).
  reflexivity.
Defined.

(** ** A whole turn *)

(** The turn "What is 3 times 4?" on an empty memory: the model asks for
    [multiply(3, 4)], the tool answers 12, the model's next reply ends the
    run, and the memory and the storage file then hold that one exchange. *)
Example multiply_turn_is_recorded :
  exists st',
    main_turn sample_repr sample_model registry_tool_node 10 "What is 3 times 4?"
      (machine Absent)
    = (inl tt, st')
    /\ conversation_history st'
       = JArr [new_record (sample_clock 0) "What is 3 times 4?" (JStr "3 times 4 is 12")]
    /\ disk st'
       = Document
           (JObj [("conversations",
                   JArr [new_record (sample_clock 0) "What is 3 times 4?"
                           (JStr "3 times 4 is 12")]);
                  ("last_updated", JStr (sample_clock 1))]).
Proof. eexists. split; [reflexivity|]. split; reflexivity. Qed.

(** * Further properties of the memory *)

(** ** Statements that only read *)

Lemma read_only_ret {A : Type} (a : A) : read_only (ret a).
Proof. intros st. reflexivity. Qed.

Lemma read_only_raise {A : Type} (e : PyExn) : read_only (@raise A e).
Proof. intros st. reflexivity. Qed.

Lemma read_only_bind {A B : Type} (c : Py A) (k : A -> Py B) :
  read_only c -> (forall a, read_only (k a)) -> read_only (bind c k).
Proof.
  intros Hc Hk st. unfold bind. specialize (Hc st).
  destruct (c st) as [[a|e] st1]; simpl in Hc; subst st1; [apply Hk|reflexivity].
Qed.

Lemma read_only_of_option {A : Type} (o : option A) (e : PyExn) :
  read_only (of_option o e).
Proof. destruct o; [apply read_only_ret|apply read_only_raise]. Qed.

Lemma read_only_subscript (v : json) (key : string) : read_only (subscript v key).
Proof. destruct v; try apply read_only_raise. apply read_only_of_option. Qed.

Lemma read_only_py_lower (v : json) : read_only (py_lower v).
Proof. destruct v; try apply read_only_raise. apply read_only_ret. Qed.

Lemma read_only_new_HumanMessage (v : json) : read_only (new_HumanMessage v).
Proof.
  unfold new_HumanMessage. destruct (valid_content v);
    [apply read_only_ret|apply read_only_raise].
Qed.

Lemma read_only_new_SystemMessage (v : json) : read_only (new_SystemMessage v).
Proof.
  unfold new_SystemMessage. destruct (valid_content v);
    [apply read_only_ret|apply read_only_raise].
Qed.

Lemma read_only_get_history : read_only get_history.
Proof. intros st. reflexivity. Qed.

Lemma read_only_matches (keyword : string) (conv : json) :
  read_only (matches keyword conv).
Proof.
  unfold matches.
  apply read_only_bind; [apply read_only_subscript|intros u].
  apply read_only_bind; [apply read_only_py_lower|intros ul].
  destruct (contains (lower keyword) ul); [apply read_only_ret|].
  apply read_only_bind; [apply read_only_subscript|intros a].
  apply read_only_bind; [apply read_only_py_lower|intros al].
  apply read_only_ret.
Qed.

Lemma read_only_filterM {A : Type} (f : A -> Py bool) (l : list A) :
  (forall x, read_only (f x)) -> read_only (filterM f l).
Proof.
  intros Hf. induction l as [|x l IH]; [apply read_only_ret|].
  simpl. apply read_only_bind; [apply Hf|intros keep].
  apply read_only_bind; [exact IH|intros ys]. apply read_only_ret.
Qed.

Lemma read_only_context_loop (repr_value : json -> string) (window : list json) :
  forall acc, read_only (context_loop repr_value window acc).
Proof.
  induction window as [|conv rest IH]; intros acc; [apply read_only_ret|].
  simpl.
  apply read_only_bind; [apply read_only_subscript|intros u].
  apply read_only_bind; [apply read_only_new_HumanMessage|intros hm].
  apply read_only_bind; [apply read_only_subscript|intros a].
  apply read_only_bind; [apply read_only_new_SystemMessage|intros sm].
  apply IH.
Qed.

Lemma read_only_search_memory (keyword : string) : read_only (search_memory keyword).
Proof.
  unfold search_memory.
  apply read_only_bind; [apply read_only_get_history|intros h].
  apply read_only_bind.
  - destruct h; try apply read_only_raise; apply read_only_ret.
  - intros convs. apply read_only_filterM. apply read_only_matches.
Qed.

Lemma read_only_get_context_messages (repr_value : json -> string) (limit : Z) :
  read_only (get_context_messages repr_value limit).
Proof.
  unfold get_context_messages.
  apply read_only_bind; [apply read_only_get_history|intros h].
  apply read_only_bind.
  - destruct h; try apply read_only_raise; apply read_only_ret.
  - intros window. apply read_only_context_loop.
Qed.

(** X1: [search_memory] and [get_context_messages] leave the memory, the
    storage file, the clock and the terminal as they found them, whether
    they return or raise on a malformed record. *)
Theorem search_and_context_only_read (repr_value : json -> string)
    (keyword : string) (limit : Z) (st : State) :
  snd (search_memory keyword st) = st
  /\ snd (get_context_messages repr_value limit st) = st.
Proof.
  split; [apply read_only_search_memory|apply read_only_get_context_messages].
Qed.

(** ** Saving *)




(** ** Appending and evicting *)

Lemma lastn_tail_of_full {A : Type} (l : list A) (x : A) :
  List.length l = 50%nat -> lastn 50 (l ++ [x]) = tl l ++ [x].
Proof.
  intros H. unfold lastn. rewrite length_app, H. simpl Nat.sub.
  destruct l as [|y l]; [discriminate|reflexivity].
Qed.

(** X3: on a history that is a list, [add_conversation] returns, reads the
    clock once and leaves the storage file and the terminal alone. Below
    50 records the new record is added at the end and nothing is dropped;
    at exactly 50 the oldest record, and only it, is dropped. In every case
    the new record is the last one. *)
Theorem add_conversation_appends_and_evicts_oldest (st : State) (items : list json)
    (user_input : string) (agent_response : json) :
  conversation_history st = JArr items ->
  let record := new_record (clock st (ticks st)) user_input agent_response in
  exists st' items',
    add_conversation user_input agent_response st = (inl tt, st')
    /\ conversation_history st' = JArr items'
    /\ last_item items' = Some record
    /\ disk st' = disk st /\ stdout st' = stdout st /\ ticks st' = S (ticks st)
    /\ ((List.length items < 50)%nat -> items' = items ++ [record])
    /\ (List.length items = 50%nat -> items' = tl items ++ [record]).
Proof.
  intros H record.
  exists (with_history (JArr (lastn 50 (items ++ [record])))
            (with_ticks (S (ticks st)) st)),
         (lastn 50 (items ++ [record])).
  split.
  { rewrite (add_conversation_list st items _ _ H).
    change (-50)%Z with (- Z.of_nat 50)%Z. now rewrite slice_from_negative by lia. }
  split; [reflexivity|].
  assert (Hfull : (List.length items < 50)%nat -> lastn 50 (items ++ [record]) = items ++ [record]).
  { intros Hl. apply lastn_all. rewrite length_app. simpl. lia. }
  split.
  - destruct (Nat.lt_ge_cases (List.length items) 50) as [Hl|Hl].
    + rewrite Hfull by exact Hl. apply last_item_app.
    + unfold lastn. rewrite length_app. simpl List.length.
      replace (List.length items + 1 - 50)%nat with (List.length items - 49)%nat by lia.
      rewrite skipn_app.
      replace (List.length items - 49 - List.length items)%nat with 0%nat by lia.
      simpl skipn at 2. apply last_item_app.
  - repeat split; [exact Hfull|apply lastn_tail_of_full].
Qed.

Lemma add_conversation_appends_and_evicts_oldest_witness :
  exists st' items',
    add_conversation "and 5 plus 6?" (JStr "11") two_record_machine = (inl tt, st')
    /\ conversation_history st' = JArr items'
    /\ items' = map to_json two_records
                ++ [new_record (sample_clock 0) "and 5 plus 6?" (JStr "11")].
Proof.
  destruct (add_conversation_appends_and_evicts_oldest two_record_machine
              (map to_json two_records) "and 5 plus 6?" (JStr "11") eq_refl)
    as (st' & items' & Hrun & Hh & _ & _ & _ & _ & Hbelow & _).
  exists st', items'. split; [exact Hrun|]. split; [exact Hh|].
  apply Hbelow. simpl. lia.
Defined.

(** ** Histories that are not lists *)

Lemma add_conversation_not_list (st : State) (u : string) (a : json) :
  (forall items, conversation_history st <> JArr items) ->
  add_conversation u a st = (inr AttributeError, st).
Proof.
  intros H. unfold add_conversation, bind, get_history. simpl.
  destruct (conversation_history st) eqn:E; try reflexivity.
  now destruct (H items).
Qed.

Lemma load_memory_value (st : State) (fields : list (string * json)) (v : json) :
  disk st = Document (JObj fields) ->
  dict_get fields "conversations" = Some v ->
  exists ev,
    load_memory st = (inl tt, with_event ev (with_history v st))
    /\ ev = match v with
            | JStr s => PrintLoaded (String.length s)
            | JArr l => PrintLoaded (List.length l)
            | JObj l => PrintLoaded (List.length l)
            | _ => PrintLoadFailed TypeError
            end.
Proof.
  intros H Hget.
  unfold load_memory, bind, path_exists, try_except, read_json. rewrite H. simpl.
  rewrite H. simpl. unfold ret. rewrite Hget.
  destruct v; eexists; split; reflexivity.
Qed.

(** X4: [load_memory] assigns the [conversations] entry of the document
    before it looks at it: an entry that is not a list (a number, a text,
    a dict, null) becomes the history all the same, and every later
    [add_conversation] raises AttributeError without changing anything. *)
Theorem load_memory_keeps_entry_that_is_not_a_list (st : State)
    (fields : list (string * json)) (v : json) (u : string) (a : json) :
  disk st = Document (JObj fields) ->
  dict_get fields "conversations" = Some v ->
  (forall items, v <> JArr items) ->
  exists st',
    load_memory st = (inl tt, st')
    /\ conversation_history st' = v
    /\ add_conversation u a st' = (inr AttributeError, st').
Proof.
  intros H Hget Hv.
  destruct (load_memory_value st fields v H Hget) as (ev & Hload & _).
  eexists. split; [exact Hload|]. split; [reflexivity|].
  now apply add_conversation_not_list.
Qed.

Lemma load_memory_keeps_entry_that_is_not_a_list_witness :
  exists st',
    load_memory (machine (Document (JObj [("conversations", JInt 5)]))) = (inl tt, st')
    /\ conversation_history st' = JInt 5
    /\ add_conversation "hello" (JStr "hi") st' = (inr AttributeError, st').
Proof.
  apply (load_memory_keeps_entry_that_is_not_a_list
           (machine (Document (JObj [("conversations", JInt 5)])))
           [("conversations", JInt 5)] (JInt 5) "hello" (JStr "hi")).
  - reflexivity.
  - reflexivity.
  - discriminate.
Defined.

Lemma load_memory_no_entry (st : State) (fields : list (string * json)) :
  disk st = Document (JObj fields) ->
  dict_get fields "conversations" = None ->
  load_memory st = (inl tt, with_event (PrintLoaded 0) (with_history (JArr []) st)).
Proof.
  intros H Hget.
  unfold load_memory, bind, path_exists, try_except, read_json. rewrite H. simpl.
  rewrite H. simpl. unfold ret. rewrite Hget. reflexivity.
Qed.

Lemma load_memory_not_dict (st : State) (doc : json) :
  disk st = Document doc ->
  (forall fields, doc <> JObj fields) ->
  load_memory st = (inl tt, with_event (PrintLoadFailed AttributeError) st).
Proof.
  intros H Hdoc.
  unfold load_memory, bind, path_exists, try_except, read_json. rewrite H. simpl.
  rewrite H. destruct doc; try reflexivity. now destruct (Hdoc fields).
Qed.

(** X5: a document without a [conversations] entry loads as an empty
    history, replacing whatever the object held, and a document that is not
    a dict at its top (a list, a text, a number, null) is reported as a
    failure and leaves the history as it was. *)
Theorem load_memory_document_without_records (st : State) (doc : json) :
  disk st = Document doc ->
  (forall fields,
      doc = JObj fields ->
      dict_get fields "conversations" = None ->
      load_memory st = (inl tt, with_event (PrintLoaded 0) (with_history (JArr []) st)))
  /\ ((forall fields, doc <> JObj fields) ->
      load_memory st = (inl tt, with_event (PrintLoadFailed AttributeError) st)).
Proof.
  intros H. split.
  - intros fields -> Hget. now apply load_memory_no_entry with (fields := fields).
  - intros Hdoc. now apply load_memory_not_dict with (doc := doc).
Qed.

Lemma load_memory_document_without_records_witness :
  load_memory (with_disk (Document (JObj [("last_updated", JStr "today")]))
                 two_record_machine)
  = (inl tt,
     with_event (PrintLoaded 0)
       (with_history (JArr [])
          (with_disk (Document (JObj [("last_updated", JStr "today")]))
             two_record_machine)))
  /\ load_memory (with_disk (Document (JArr [])) two_record_machine)
     = (inl tt,
        with_event (PrintLoadFailed AttributeError)
          (with_disk (Document (JArr [])) two_record_machine)).
Proof.
  split.
  - apply (proj1 (load_memory_document_without_records
                    (with_disk (Document (JObj [("last_updated", JStr "today")]))
                       two_record_machine) _ eq_refl)
             [("last_updated", JStr "today")]); reflexivity.
  - apply (proj2 (load_memory_document_without_records
                    (with_disk (Document (JArr [])) two_record_machine) _ eq_refl)).
    discriminate.
Defined.

(** ** The cap over a whole session *)

Lemma healthy_with_event (ev : event) (st : State) :
  healthy st -> healthy (with_event ev st).
Proof. intros H. exact H. Qed.

Lemma healthy_load (st : State) : healthy st -> healthy (snd (load_memory st)).
Proof.
  intros H. destruct (disk st) as [| | |doc] eqn:E.
  - now rewrite load_memory_absent.
  - rewrite load_memory_unreadable by exact E. now apply healthy_with_event.
  - rewrite load_memory_garbage by exact E. now apply healthy_with_event.
  - destruct doc as [| | | | | |fields];
      try (rewrite (load_memory_not_dict st _ E) by discriminate;
           now apply healthy_with_event).
    destruct H as [Hh Hd]. unfold file_within_cap in Hd. rewrite E in Hd.
    destruct (dict_get fields "conversations") as [v|] eqn:Hget.
    + destruct (load_memory_value st fields v E Hget) as (ev & -> & _).
      split; simpl; [exact Hd|].
      unfold file_within_cap. rewrite E, Hget. exact Hd.
    + rewrite (load_memory_no_entry st fields E Hget). split; simpl.
      * exists []. split; [reflexivity|simpl; lia].
      * unfold file_within_cap. now rewrite E, Hget.
Qed.

Lemma healthy_save (st : State) : healthy st -> healthy (snd (save_memory st)).
Proof.
  intros [Hh Hd]. destruct (writable st) eqn:E.
  - rewrite save_memory_writes by exact E. split; [exact Hh|exact Hh].
  - rewrite save_memory_fails by exact E. split; [exact Hh|exact Hd].
Qed.

Lemma healthy_add (st : State) (u : string) (a : json) :
  healthy st -> healthy (snd (add_conversation u a st)).
Proof.
  intros [(items & Hh & Hlen) Hd].
  rewrite (add_conversation_list st items u a Hh). split; [|exact Hd].
  eexists. split; [reflexivity|].
  change (-50)%Z with (- Z.of_nat 50)%Z. rewrite slice_from_negative by lia.
  rewrite lastn_length. lia.
Qed.

Lemma healthy_clear (st : State) : healthy st -> healthy (snd (clear_memory st)).
Proof.
  intros [Hh Hd]. unfold clear_memory, bind, set_history.
  apply healthy_save. split; [|exact Hd]. exists []. split; [reflexivity|simpl; lia].
Qed.

Lemma healthy_run_op (repr_value : json -> string) (op : memory_op) (st : State) :
  healthy st -> healthy (snd (run_op repr_value op st)).
Proof.
  intros H. destruct op as [| |u a| |keyword|limit]; simpl.
  - now apply healthy_load.
  - now apply healthy_save.
  - now apply healthy_add.
  - now apply healthy_clear.
  - rewrite (read_only_bind _ _ (read_only_search_memory keyword)
               (fun _ => read_only_ret tt) st). exact H.
  - rewrite (read_only_bind _ _ (read_only_get_context_messages repr_value limit)
               (fun _ => read_only_ret tt) st). exact H.
Qed.

(** X6: a machine whose history is a list of at most 50 records and whose
    storage file would load as such a list stays that way under every run
    of load, save, add, clear, search and context operations, also when
    some of them raise; a new memory object on a file within the cap starts
    in that condition. *)
Theorem cap_holds_throughout_session (repr_value : json -> string) :
  (forall st, file_within_cap (disk st) -> healthy (snd (init_memory st)))
  /\ (forall ops st, healthy st -> healthy (after_ops repr_value ops st)).
Proof.
  split.
  - intros st Hd. unfold init_memory, bind, set_history.
    apply healthy_load. split; [|exact Hd]. exists []. split; [reflexivity|simpl; lia].
  - intros ops. unfold after_ops.
    induction ops as [|op ops IH]; intros st H; [exact H|].
    simpl. apply IH. now apply healthy_run_op.
Qed.

Lemma cap_holds_throughout_session_witness :
  healthy (after_ops sample_repr
             [OpAdd "hello" (JStr "hi"); OpSave; OpContext 5; OpClear; OpLoad]
             (snd (init_memory (machine Absent)))).
Proof.
  apply (proj2 (cap_holds_throughout_session sample_repr)).
  apply (proj1 (cap_holds_throughout_session sample_repr)). exact I.
Defined.

(** * Further properties of the context window *)

Lemma lastn_app_right {A : Type} (n : nat) (l r : list A) :
  (n <= List.length r)%nat -> lastn n (l ++ r) = lastn n r.
Proof.
  intros H. unfold lastn. rewrite length_app, skipn_app.
  replace (List.length l + List.length r - n - List.length l)%nat
    with (List.length r - n)%nat by lia.
  rewrite skipn_all2 by lia. reflexivity.
Qed.

Lemma render_length (rs : list ConversationRecord) :
  List.length (flat_map render rs) = (2 * List.length rs)%nat.
Proof. induction rs as [|r rs IH]; simpl; [reflexivity|rewrite IH; lia]. Qed.

Lemma slice_from_positive {A : Type} (k : nat) (l : list A) :
  slice_from (Z.of_nat k) l = skipn k l.
Proof.
  unfold slice_from.
  replace (Z.of_nat k <? 0)%Z with false by (symmetry; apply Z.ltb_ge; lia).
  destruct (Nat.le_gt_cases k (List.length l)) as [H|H].
  - f_equal. lia.
  - replace (Z.to_nat (Z.min (Z.of_nat k) (Z.of_nat (List.length l))))
      with (List.length l) by lia.
    now rewrite !skipn_all2 by lia.
Qed.

(** X7: [get_context_messages] reads the records of its window and no
    others: when the last [limit] items of the history are well-formed
    records, the result is their rendering, two messages a record, whatever
    the older items are. *)
Theorem context_reads_only_its_window (repr_value : json -> string) (st : State)
    (older : list json) (rs : list ConversationRecord) (limit : nat) :
  conversation_history st = JArr (older ++ map to_json rs) ->
  (0 < limit <= List.length rs)%nat ->
  get_context_messages repr_value (Z.of_nat limit) st
  = (inl (flat_map render (lastn limit rs)), st)
  /\ List.length (flat_map render (lastn limit rs)) = (2 * limit)%nat.
Proof.
  intros H [Hpos Hle]. split.
  - unfold get_context_messages, bind, get_history. rewrite H. simpl.
    rewrite slice_from_negative by exact Hpos.
    rewrite lastn_app_right by (now rewrite length_map).
    rewrite lastn_map. apply (context_loop_records _ _ []).
  - rewrite render_length, lastn_length. lia.
Qed.

Lemma context_reads_only_its_window_witness :
  get_context_messages sample_repr 1
    (with_history (JArr ([JInt 7; JNull] ++ map to_json two_records)) (machine Absent))
  = (inl (flat_map render (lastn 1 two_records)),
     with_history (JArr ([JInt 7; JNull] ++ map to_json two_records)) (machine Absent)).
Proof.
  apply (context_reads_only_its_window sample_repr
           (with_history (JArr ([JInt 7; JNull] ++ map to_json two_records))
              (machine Absent))
           [JInt 7; JNull] two_records 1 eq_refl).
  simpl. lia.
Defined.

(** X8: a negative limit does not raise: [[-limit:]] then starts at index
    [-limit], so the first [-limit] records are left out and all later ones
    are rendered. *)
Theorem context_negative_limit_skips_oldest (repr_value : json -> string) (st : State)
    (rs : list ConversationRecord) (k : nat) :
  conversation_history st = JArr (map to_json rs) ->
  get_context_messages repr_value (- Z.of_nat k) st
  = (inl (flat_map render (skipn k rs)), st).
Proof.
  intros H. unfold get_context_messages, bind, get_history. rewrite H. simpl.
  rewrite Z.opp_involutive, slice_from_positive, skipn_map.
  apply (context_loop_records _ _ []).
Qed.

Lemma context_negative_limit_skips_oldest_witness :
  get_context_messages sample_repr (-1) two_record_machine
  = (inl (flat_map render (skipn 1 two_records)), two_record_machine).
Proof.
  exact (context_negative_limit_skips_oldest sample_repr two_record_machine
           two_records 1 eq_refl).
Defined.

(** X9: the state [main] builds for a turn on a history of well-formed
    records is the rendering of the last five records followed by the new
    prompt; it holds at most eleven messages however long the history is. *)
Theorem turn_inputs_are_bounded (repr_value : json -> string) (st : State)
    (rs : list ConversationRecord) (user_prompt : string) :
  conversation_history st = JArr (map to_json rs) ->
  turn_inputs repr_value user_prompt st
  = (inl (flat_map render (lastn 5 rs) ++ [HumanMessage (JStr user_prompt)]), st)
  /\ (List.length (flat_map render (lastn 5 rs) ++ [HumanMessage (JStr user_prompt)])
      <= 11)%nat.
Proof.
  intros H. split.
  - unfold turn_inputs. unfold bind at 1.
    pose proof (get_context_messages_last_records repr_value st rs 5
                  (Nat.lt_0_succ 4) H) as E.
    change (Z.of_nat 5) with 5%Z in E. rewrite E. reflexivity.
  - rewrite length_app, render_length, lastn_length. simpl List.length. lia.
Qed.

Lemma turn_inputs_are_bounded_witness :
  turn_inputs sample_repr "and now?" two_record_machine
  = (inl (flat_map render two_records ++ [HumanMessage (JStr "and now?")]),
     two_record_machine).
Proof.
  exact (proj1 (turn_inputs_are_bounded sample_repr two_record_machine two_records
                  "and now?" eq_refl)).
Defined.

Lemma context_loop_after_records (repr_value : json -> string)
    (good : list ConversationRecord) (window : list json) :
  forall (acc : list Message) (st : State),
    context_loop repr_value (map to_json good ++ window) acc st
    = context_loop repr_value window (acc ++ flat_map render good) st.
Proof.
  induction good as [|r good IH]; intros acc st.
  - simpl. now rewrite app_nil_r.
  - simpl. unfold bind. simpl. rewrite IH. now rewrite <- !app_assoc.
Qed.

(** X10: a stored item in the window that is a dict without a [user] entry
    makes [get_context_messages] raise KeyError for [user], and one with a
    text [user] but no [agent] entry makes it raise KeyError for [agent];
    the records before it do not help, and the machine is left as it was. *)
Theorem context_raises_on_missing_key (repr_value : json -> string) (st : State)
    (good : list ConversationRecord) (fields : list (string * json))
    (rest : list json) (limit : nat) :
  conversation_history st = JArr (map to_json good ++ JObj fields :: rest) ->
  (List.length (map to_json good ++ JObj fields :: rest) <= limit)%nat ->
  (dict_get fields "user" = None ->
   get_context_messages repr_value (Z.of_nat limit) st = (inr (KeyError "user"), st))
  /\ (forall u,
        dict_get fields "user" = Some (JStr u) ->
        dict_get fields "agent" = None ->
        get_context_messages repr_value (Z.of_nat limit) st
        = (inr (KeyError "agent"), st)).
Proof.
  intros H Hlen.
  assert (Hpos : (0 < limit)%nat).
  { rewrite length_app in Hlen. simpl in Hlen. lia. }
  assert (Hrun : get_context_messages repr_value (Z.of_nat limit) st
                 = context_loop repr_value (JObj fields :: rest)
                     ([] ++ flat_map render good) st).
  { unfold get_context_messages, bind, get_history. rewrite H. simpl.
    rewrite slice_from_negative by exact Hpos.
    rewrite lastn_all by exact Hlen. apply context_loop_after_records. }
  rewrite Hrun. split.
  - intros Hu. simpl. unfold bind at 1. simpl. now rewrite Hu.
  - intros u Hu Ha. simpl. unfold bind at 1. simpl. rewrite Hu. simpl.
    unfold bind at 1. simpl. unfold bind at 1. simpl. now rewrite Ha.
Qed.

Lemma context_raises_on_missing_key_witness :
  get_context_messages sample_repr 5
    (with_history
       (JArr (map to_json two_records ++ [JObj [("user", JStr "hello")]]))
       (machine Absent))
  = (inr (KeyError "agent"),
     with_history
       (JArr (map to_json two_records ++ [JObj [("user", JStr "hello")]]))
       (machine Absent)).
Proof.
  apply (proj2 (context_raises_on_missing_key sample_repr
                  (with_history
                     (JArr (map to_json two_records ++ [JObj [("user", JStr "hello")]]))
                     (machine Absent))
                  two_records [("user", JStr "hello")] [] 5 eq_refl
                  (le_S _ _ (le_S _ _ (le_n 3))))
           "hello").
  - reflexivity.
  - reflexivity.
Defined.

(** * Further properties of the search *)

Lemma contains_empty (hay : string) : contains "" hay = true.
Proof. destruct hay; reflexivity. Qed.

Lemma filter_all {A : Type} (f : A -> bool) (l : list A) :
  (forall x, f x = true) -> filter f l = l.
Proof.
  intros H. induction l as [|x l IH]; [reflexivity|]. simpl. now rewrite H, IH.
Qed.

Lemma search_memory_records (st : State) (rs : list ConversationRecord)
    (keyword : string) :
  conversation_history st = JArr (map to_json rs) ->
  search_memory keyword st = (inl (map to_json (filter (mentions keyword) rs)), st).
Proof.
  intros H. unfold search_memory, bind, get_history. rewrite H. simpl.
  apply filterM_records.
Qed.

Lemma matches_same_case (k1 k2 : string) :
  lower k1 = lower k2 -> matches k1 = matches k2.
Proof. intros H. unfold matches. now rewrite H. Qed.

(** X11: the search ignores the case of the keyword itself: two keywords
    that differ only in case give the same answer on every machine, raise
    included; and the empty keyword finds every record. *)
Theorem search_ignores_keyword_case (st : State) (rs : list ConversationRecord) :
  (forall k1 k2, lower k1 = lower k2 -> search_memory k1 st = search_memory k2 st)
  /\ (conversation_history st = JArr (map to_json rs) ->
      search_memory "" st = (inl (map to_json rs), st)).
Proof.
  split.
  - intros k1 k2 H. unfold search_memory. now rewrite (matches_same_case k1 k2 H).
  - intros H. rewrite (search_memory_records st rs "" H).
    rewrite filter_all; [reflexivity|].
    intros r. unfold mentions. change (lower "") with "". now rewrite contains_empty.
Qed.

Lemma search_ignores_keyword_case_witness :
  search_memory "FOO" two_record_machine = search_memory "foo" two_record_machine
  /\ search_memory "" two_record_machine
     = (inl (map to_json two_records), two_record_machine).
Proof.
  split.
  - apply (proj1 (search_ignores_keyword_case two_record_machine two_records)).
    reflexivity.
  - apply (proj2 (search_ignores_keyword_case two_record_machine two_records)).
    reflexivity.
Defined.








(** * Further properties of a turn *)

Lemma last_item_some {A : Type} (l : list A) : l <> [] -> exists x, last_item l = Some x.
Proof.
  intros H. destruct (last_item l) as [x|] eqn:E; [now exists x|].
  now apply last_item_none in E.
Qed.

Lemma capture_loop_returns (values : list AgentState) (default : json) (st : State) :
  Forall (fun s => s <> []) values ->
  exists response,
    capture_loop values default st = (inl response, with_events (printed values) st).
Proof.
  intros Hne. destruct values as [|s rest].
  - exists default. simpl. unfold ret, with_events. simpl. rewrite app_nil_r.
    now destruct st.
  - destruct (last_item_some (s :: rest)) as (final & Hf); [discriminate|].
    assert (Hin : In final (s :: rest)).
    { clear Hne. revert s Hf. induction rest as [|s2 rest IH]; intros s Hf.
      - injection Hf as <-. now left.
      - right. apply (IH s2). exact Hf. }
    rewrite Forall_forall in Hne.
    destruct (last_item_some final (Hne final Hin)) as (m & Hm).
    exists (message_content m).
    apply (capture_loop_last (s :: rest) default st final m);
      [now apply Forall_forall|exact Hf|exact Hm].
Qed.



(** X14: a stream that raises is captured up to the raise and nothing is
    recorded: [print_stream_with_memory] raises the same exception, and the
    machine has only gained the pretty-printed messages, so history, file
    and clock are as before; the same holds for a stream that yields
    nothing at all. *)
Theorem failed_stream_records_nothing (st : State) (values : list AgentState)
    (e : PyExn) (user_input : string) :
  Forall (fun s => s <> []) values ->
  print_stream_with_memory (values, Raised e) user_input st
  = (inr e, with_events (printed values) st)
  /\ conversation_history (with_events (printed values) st) = conversation_history st
  /\ disk (with_events (printed values) st) = disk st
  /\ ticks (with_events (printed values) st) = ticks st
  /\ print_stream_with_memory ([], Finished) user_input st = (inl tt, st).
Proof.
  intros Hne. split; [|repeat split].
  unfold print_stream_with_memory. unfold bind at 1. simpl fst. simpl snd.
  destruct (capture_loop_returns values (JStr "") st Hne) as (response & ->).
  reflexivity.
Qed.

Lemma failed_stream_records_nothing_witness :
  print_stream_with_memory ([sample_inputs], Raised (ModelError "timeout"))
    "What is 3 times 4?" two_record_machine
  = (inr (ModelError "timeout"),
     with_events (printed [sample_inputs]) two_record_machine).
Proof.
  apply (failed_stream_records_nothing two_record_machine [sample_inputs]
           (ModelError "timeout") "What is 3 times 4?").
  repeat constructor. discriminate.
Defined.

Lemma turn_inputs_records (repr_value : json -> string) (st : State)
    (rs : list ConversationRecord) (user_prompt : string) :
  conversation_history st = JArr (map to_json rs) ->
  turn_inputs repr_value user_prompt st
  = (inl (flat_map render (lastn 5 rs) ++ [HumanMessage (JStr user_prompt)]), st).
Proof.
  intros H. unfold turn_inputs. unfold bind at 1.
  pose proof (get_context_messages_last_records repr_value st rs 5
                (Nat.lt_0_succ 4) H) as E.
  change (Z.of_nat 5) with 5%Z in E. rewrite E. reflexivity.
Qed.

Lemma model_failure_ends_stream (model_invoke : list Message -> Message + PyExn)
    (tool_node : AgentState -> list Message + PyExn) (fuel : nat)
    (inputs : AgentState) (e : PyExn) :
  model_invoke (model_input inputs) = inr e ->
  app_stream model_invoke tool_node (S fuel) inputs = ([inputs], Raised e).
Proof.
  intros H. unfold app_stream.
  rewrite stream_from_S by discriminate.
  unfold graph_step, model_call. now rewrite H.
Qed.

(** X15: when the model fails on the first call of a turn, the stream is
    the input state followed by the raise, and the turn of [main] raises
    the model's exception after echoing the prompt: nothing is added to the
    history and the storage file is not written. *)
Theorem failing_model_abandons_turn (repr_value : json -> string)
    (model_invoke : list Message -> Message + PyExn)
    (tool_node : AgentState -> list Message + PyExn) (fuel : nat) (st : State)
    (rs : list ConversationRecord) (user_prompt : string) (e : PyExn) :
  conversation_history st = JArr (map to_json rs) ->
  model_invoke
    (model_input (flat_map render (lastn 5 rs) ++ [HumanMessage (JStr user_prompt)]))
  = inr e ->
  main_turn repr_value model_invoke tool_node (S fuel) user_prompt st
  = (inr e, with_event (PrettyPrint (HumanMessage (JStr user_prompt))) st)
  /\ conversation_history
       (snd (main_turn repr_value model_invoke tool_node (S fuel) user_prompt st))
     = conversation_history st
  /\ disk (snd (main_turn repr_value model_invoke tool_node (S fuel) user_prompt st))
     = disk st.
Proof.
  intros H Hm.
  assert (Hrun : main_turn repr_value model_invoke tool_node (S fuel) user_prompt st
                 = (inr e, with_event (PrettyPrint (HumanMessage (JStr user_prompt))) st)).
  { unfold main_turn. unfold bind at 1.
    rewrite (turn_inputs_records repr_value st rs user_prompt H).
    rewrite (model_failure_ends_stream model_invoke tool_node fuel _ e Hm).
    unfold print_stream_with_memory. unfold bind at 1. simpl fst. simpl snd.
    simpl capture_loop. unfold bind at 1. rewrite last_item_app. reflexivity. }
  rewrite Hrun. repeat split.
Qed.

Lemma failing_model_abandons_turn_witness :
  main_turn sample_repr (fun _ => inr (ModelError "timeout")) registry_tool_node 10
    "and now?" two_record_machine
  = (inr (ModelError "timeout"),
     with_event (PrettyPrint (HumanMessage (JStr "and now?"))) two_record_machine).
Proof.
  apply (failing_model_abandons_turn sample_repr (fun _ => inr (ModelError "timeout"))
           registry_tool_node 9 two_record_machine two_records "and now?"
           (ModelError "timeout")).
  - reflexivity.
  - reflexivity.
Defined.



(** * Further properties of the loop *)

Section EndlessLoop.

Variable model_invoke : list Message -> Message + PyExn.
Variable tool_node : AgentState -> list Message + PyExn.

Hypothesis model_always_calls :
  forall messages, exists response,
    model_invoke messages = inl response /\ has_tool_calls response = true.
Hypothesis tool_node_returns : forall state, exists update, tool_node state = inl update.

Lemma endless_stream_from (fuel : nat) :
  forall node state,
    node <> END ->
    exists values,
      stream_from model_invoke tool_node fuel node state = (values, OutOfSteps)
      /\ List.length values = fuel.
Proof.
  induction fuel as [|fuel IH]; intros node state Hnode.
  - exists []. destruct node; [split; reflexivity|split; reflexivity|congruence].
  - rewrite stream_from_S by exact Hnode.
    destruct node; [| |congruence].
    + destruct (model_always_calls (model_input state)) as (response & Hm & Hc).
      rewrite (agent_step model_invoke tool_node state response Hm), Hc.
      destruct (IH tools (state ++ [response])) as (values & -> & Hlen); [discriminate|].
      exists ((state ++ [response]) :: values). split; [reflexivity|simpl; now rewrite Hlen].
    + destruct (tool_node_returns state) as (update & Ht).
      unfold graph_step. rewrite Ht.
      destruct (IH agent_calling (add_messages state update)) as (values & -> & Hlen);
        [discriminate|].
      exists (add_messages state update :: values).
      split; [reflexivity|simpl; now rewrite Hlen].
Qed.

End EndlessLoop.

(** X17: the only way out of the loop is a response without tool calls:
    with a model that asks for a tool in every response and a tools node
    that returns, the run does not finish within any number of steps it is
    given, and it streams one value a step. *)
Theorem loop_never_ends_while_model_calls_tools
    (model_invoke : list Message -> Message + PyExn)
    (tool_node : AgentState -> list Message + PyExn) (fuel : nat)
    (inputs : AgentState) :
  (forall messages, exists response,
      model_invoke messages = inl response /\ has_tool_calls response = true) ->
  (forall state, exists update, tool_node state = inl update) ->
  exists values,
    app_stream model_invoke tool_node fuel inputs = (values, OutOfSteps)
    /\ List.length values = S fuel.
Proof.
  intros Hm Ht. unfold app_stream.
  destruct (endless_stream_from model_invoke tool_node Hm Ht fuel agent_calling inputs)
    as (values & -> & Hlen); [discriminate|].
  exists (inputs :: values). split; [reflexivity|simpl; now rewrite Hlen].
Qed.

Lemma loop_never_ends_while_model_calls_tools_witness :
  exists values,
    app_stream insistent_model (fun _ => inl []) 25 sample_inputs = (values, OutOfSteps)
    /\ List.length values = 26%nat.
Proof.
  apply (loop_never_ends_while_model_calls_tools insistent_model (fun _ => inl []) 25
           sample_inputs).
  - intros messages. eexists. split; reflexivity.
  - intros state. eexists. reflexivity.
Defined.

(** * The environment check *)

(** X18: the module loads exactly when each of the four Azure variables is
    set to a text that is not empty; a variable that is unset, or set to the
    empty text, makes the import raise. *)
Theorem environment_check_needs_all_four (getenv : string -> option string) :
  (check_environment getenv = inl tt
   <-> forall name, In name required_variables ->
                    exists value, getenv name = Some value /\ value <> "")
  /\ (check_environment getenv = inr OSError
      <-> exists name, In name required_variables
                       /\ (getenv name = None \/ getenv name = Some "")).
Proof.
  assert (Htruthy : forall v, env_truthy v = true <-> exists s, v = Some s /\ s <> "").
  { intros [s|]; simpl.
    - rewrite negb_true_iff, String.eqb_neq. split.
      + intros H. now exists s.
      + intros (s' & Hs & Hne). now injection Hs as ->.
    - split; [discriminate|]. intros (s & Hs & _). discriminate. }
  assert (Hall : forallb env_truthy (map getenv required_variables) = true
                 <-> forall name, In name required_variables ->
                                  exists value, getenv name = Some value /\ value <> "").
  { rewrite forallb_forall. split.
    - intros H name Hin. apply Htruthy, H, in_map, Hin.
    - intros H v Hv. apply in_map_iff in Hv as (name & <- & Hin).
      apply Htruthy, H, Hin. }
  unfold check_environment. split.
  - destruct (forallb env_truthy (map getenv required_variables)) eqn:E; simpl.
    + split; [intros _; now apply Hall|reflexivity].
    + split; [discriminate|]. intros H. apply Hall in H. discriminate.
  - destruct (forallb env_truthy (map getenv required_variables)) eqn:E; simpl.
    + split; [discriminate|]. intros (name & Hin & Hbad).
      destruct (proj1 Hall eq_refl name Hin) as (value & Hv & Hne).
      destruct Hbad as [Hbad|Hbad]; rewrite Hbad in Hv; [discriminate|].
      injection Hv as <-. now destruct Hne.
    + split; [|reflexivity]. intros _.
      apply not_true_iff_false in E.
      assert (Hex : existsb (fun v => negb (env_truthy v))
                      (map getenv required_variables) = true).
      { destruct (existsb (fun v => negb (env_truthy v))
                    (map getenv required_variables)) eqn:Ex; [reflexivity|].
        exfalso. apply E. apply forallb_forall. intros v Hv.
        destruct (env_truthy v) eqn:Ev; [reflexivity|].
        assert (existsb (fun v => negb (env_truthy v))
                  (map getenv required_variables) = true)
          by (apply existsb_exists; exists v; split; [exact Hv|now rewrite Ev]).
        congruence. }
      apply existsb_exists in Hex as (v & Hv & Hbad).
      apply in_map_iff in Hv as (name & <- & Hin).
      exists name. split; [exact Hin|].
      destruct (getenv name) as [s|]; [|now left]. right.
      simpl in Hbad. rewrite negb_involutive in Hbad.
      apply String.eqb_eq in Hbad. now subst.
Qed.

(** * The command loop *)

Lemma tame_ret {A : Type} (a : A) : tame (cli_ret a).
Proof. intros ss. discriminate. Qed.

Lemma tame_say (l : line) : tame (say l).
Proof. intros ss. discriminate. Qed.

Lemma tame_lift {A : Type} (c : Py A) : tame (lift c).
Proof.
  intros ss. unfold lift. destruct (c (world ss)) as [[a|e] st']; discriminate.
Qed.

Lemma tame_bind {A B : Type} (c : Cli A) (k : A -> Cli B) :
  tame c -> (forall a, tame (k a)) -> tame (cli_bind c k).
Proof.
  intros Hc Hk ss. unfold cli_bind. specialize (Hc ss).
  destruct (c ss) as [[a|e] ss1]; [apply Hk|].
  simpl in *. intros H. apply Hc. injection H as ->. reflexivity.
Qed.






Section MainFacts.

Variable repr_value : json -> string.
Variable strftime_iso : string -> option string.

Lemma tame_fromisoformat (v : json) : tame (fromisoformat_strftime strftime_iso v).
Proof.
  intros ss. destruct v; try discriminate. simpl.
  destruct (strftime_iso s); discriminate.
Qed.

Lemma tame_first_120 (v : json) : tame (first_120 v).
Proof. intros ss. destruct v; discriminate. Qed.

Lemma tame_show_loop (window : list json) :
  tame (show_loop repr_value strftime_iso window).
Proof.
  induction window as [|conv rest IH]; [apply tame_ret|]. simpl.
  apply tame_bind; [apply tame_lift|intros stamp].
  apply tame_bind; [apply tame_fromisoformat|intros ts].
  apply tame_bind; [apply tame_lift|intros u].
  apply tame_bind; [apply tame_say|intros _].
  apply tame_bind; [apply tame_lift|intros a].
  apply tame_bind; [apply tame_first_120|intros cut].
  apply tame_bind; [apply tame_say|intros _].
  apply tame_bind; [apply tame_say|intros _]. exact IH.
Qed.


Lemma tame_show_recent (limit : Z) :
  tame (show_recent_conversations repr_value strftime_iso limit).
Proof.
  unfold show_recent_conversations.
  apply tame_bind; [apply tame_lift|intros h].
  apply tame_bind; [apply tame_lift|intros window]. apply tame_show_loop.
Qed.


End MainFacts.

Lemma keeps_going_ret : keeps_going (cli_ret KeepGoing).
Proof. intros ss. reflexivity. Qed.

Lemma keeps_going_bind {A : Type} (c : Cli A) (k : A -> Cli control) :
  tame c -> (forall a, keeps_going (k a)) -> keeps_going (cli_bind c k).
Proof.
  intros Hc Hk ss. unfold cli_bind. specialize (Hc ss).
  destruct (c ss) as [[a|e] ss1]; [apply Hk|].
  simpl in Hc. intros ->. now apply Hc.
Qed.

Lemma is_quit_spec (user_prompt : string) :
  is_quit user_prompt = true <-> In (lower user_prompt) quit_words.
Proof.
  unfold is_quit. rewrite existsb_exists. split.
  - intros (w & Hin & Heq). apply String.eqb_eq in Heq. now subst.
  - intros Hin. exists (lower user_prompt). split; [exact Hin|apply String.eqb_refl].
Qed.

Section IterationFacts.

Variable repr_value : json -> string.
Variable strftime_iso : string -> option string.
Variable model_invoke : list Message -> Message + PyExn.
Variable tool_node : AgentState -> list Message + PyExn.
Variable steps : nat.

Let iteration := main_iteration repr_value strftime_iso model_invoke tool_node steps.
Let command := dispatch repr_value strftime_iso model_invoke tool_node steps.

Lemma dispatch_not_quit (user_prompt : string) :
  is_quit user_prompt = false -> keeps_going (command user_prompt).
Proof.
  intros Hq. unfold command, dispatch. rewrite Hq.
  destruct (String.eqb user_prompt "memory").
  { apply keeps_going_bind; [apply tame_show_recent|intros _; apply keeps_going_ret]. }
  destruct (String.prefix "search " user_prompt).
  { apply keeps_going_bind; [apply tame_lift|intros results].
    apply keeps_going_bind; [apply tame_say|intros _; apply keeps_going_ret]. }
  destruct (String.eqb user_prompt "clear memory").
  { apply keeps_going_bind; [apply tame_lift|intros _].
    apply keeps_going_bind; [apply tame_lift|intros _].
    apply keeps_going_bind; [apply tame_say|intros _; apply keeps_going_ret]. }
  destruct (String.eqb user_prompt ""); [apply keeps_going_ret|].
  apply keeps_going_bind; [apply tame_lift|intros _; apply keeps_going_ret].
Qed.

Lemma dispatch_quit (user_prompt : string) (ss : Session) :
  is_quit user_prompt = true ->
  command user_prompt ss
  = (inl Stop, mkSession (world ss) (terminal ss ++ [SayGoodbye false])).
Proof. intros Hq. unfold command, dispatch. now rewrite Hq. Qed.

Lemma iteration_typed (text : string) (ss : Session) :
  exists ctl ss',
    iteration (Typed text) ss = (inl ctl, ss')
    /\ (ctl = Stop <-> is_quit (strip text) = true).
Proof.
  unfold iteration, main_iteration, cli_bind at 1. simpl input. unfold cli_ret at 1.
  fold command.
  destruct (is_quit (strip text)) eqn:Hq.
  - rewrite (dispatch_quit _ ss Hq). eexists. eexists. split; [reflexivity|].
    split; reflexivity.
  - pose proof (dispatch_not_quit _ Hq ss) as H.
    destruct (command (strip text) ss) as [[ctl|e] ss'].
    + subst ctl. eexists. eexists. split; [reflexivity|]. split; discriminate.
    + destruct e; try (now destruct H);
        (eexists; eexists; split; [reflexivity|]; split; discriminate).
Qed.

End IterationFacts.

Lemma main_iteration_outcome (repr_value : json -> string)
    (strftime_iso : string -> option string)
    (model_invoke : list Message -> Message + PyExn)
    (tool_node : AgentState -> list Message + PyExn) (steps : nat)
    (key : keyboard) (ss : Session) :
  exists ctl ss',
    main_iteration repr_value strftime_iso model_invoke tool_node steps key ss
    = (inl ctl, ss')
    /\ (ctl = Stop
        <-> key = Interrupt
            \/ exists text, key = Typed text /\ In (lower (strip text)) quit_words).
Proof.
  destruct key as [text| |].
  - destruct (iteration_typed repr_value strftime_iso model_invoke tool_node steps
                text ss) as (ctl & ss' & Hrun & Hctl).
    exists ctl, ss'. split; [exact Hrun|]. rewrite Hctl, is_quit_spec. split.
    + intros H. right. now exists text.
    + intros [H|(text' & Ht & H)]; [discriminate|]. now injection Ht as ->.
  - eexists. eexists. split; [reflexivity|]. split; [discriminate|].
    intros [H|(text & H & _)]; discriminate.
  - eexists. eexists. split; [reflexivity|]. split; [now left|reflexivity].
Qed.


Section CommandFacts.

Variable repr_value : json -> string.
Variable strftime_iso : string -> option string.



End CommandFacts.



(** X21: once the input is exhausted the loop never ends: [input] raises
    EOFError, the handler reports it and the loop asks again, so every
    further pass only adds one error line and leaves the machine alone. *)
Theorem loop_spins_at_end_of_input (repr_value : json -> string)
    (strftime_iso : string -> option string)
    (model_invoke : list Message -> Message + PyExn)
    (tool_node : AgentState -> list Message + PyExn) (steps rounds : nat)
    (ss : Session) :
  main_loop repr_value strftime_iso model_invoke tool_node steps rounds [] ss
  = (StillRunning,
     mkSession (world ss) (terminal ss ++ repeat (SayAgentError EOFError) rounds)).
Proof.
  revert ss. induction rounds as [|rounds IH]; intros ss.
  - simpl. rewrite app_nil_r. now destruct ss.
  - assert (Hpass : main_iteration repr_value strftime_iso model_invoke tool_node
                      steps EndOfInput ss
                    = (inl KeepGoing,
                       mkSession (world ss) (terminal ss ++ [SayAgentError EOFError])))
      by reflexivity.
    cbn [main_loop next_key fst snd]. rewrite Hpass, IH. simpl.
    now rewrite <- app_assoc.
Qed.



(** ** Showing recent conversations *)



Section RecentFacts.

Variable repr_value : json -> string.
Variable strftime_iso : string -> option string.
Variable fmt : string -> string.



End RecentFacts.





(** * Clearing the memory *)

(** X25: the [clear memory] command empties the history at once, but it
    lasts over a restart only if the save goes through: with a writable
    file a new memory object loads an empty history, whereas when the write
    fails the file keeps its records and a new memory object gets them all
    back. *)
Theorem clear_lasts_only_if_saved (st : State) :
  (writable st = true ->
   exists st1 st2,
     clear_memory st = (inl tt, st1)
     /\ conversation_history st1 = JArr []
     /\ init_memory st1 = (inl tt, st2)
     /\ conversation_history st2 = JArr [])
  /\ (forall fields items,
        writable st = false ->
        disk st = Document (JObj fields) ->
        dict_get fields "conversations" = Some (JArr items) ->
        exists st1 st2,
          clear_memory st = (inl tt, st1)
          /\ conversation_history st1 = JArr []
          /\ init_memory st1 = (inl tt, st2)
          /\ conversation_history st2 = JArr items).
Proof.
  split.
  - intros Hw.
    destruct (init_memory_after_save (with_history (JArr []) st)) as (st2 & Hload & Hh & _).
    exists (saved (with_history (JArr []) st)), st2.
    split; [|split; [reflexivity|split; [exact Hload|exact Hh]]].
    unfold clear_memory, bind, set_history. now rewrite save_memory_writes.
  - intros fields items Hw Hd Hget.
    eexists. eexists. split; [|split; [|split]].
    + unfold clear_memory, bind, set_history. now rewrite save_memory_fails.
    + reflexivity.
    + unfold init_memory, bind, set_history.
      apply (load_memory_records _ fields items); [exact Hd|exact Hget].
    + reflexivity.
Qed.

Lemma clear_lasts_only_if_saved_witness :
  exists st1 st2,
    clear_memory (mkState (JArr (map sample_record (seq 0 51)))
                    (Document crowded_document) false 0 sample_clock [])
    = (inl tt, st1)
    /\ conversation_history st1 = JArr []
    /\ init_memory st1 = (inl tt, st2)
    /\ conversation_history st2 = JArr (map sample_record (seq 0 51)).
Proof.
  apply (proj2 (clear_lasts_only_if_saved
                  (mkState (JArr (map sample_record (seq 0 51)))
                     (Document crowded_document) false 0 sample_clock []))
           [("conversations", JArr (map sample_record (seq 0 51)));
            ("last_updated", JStr (sample_clock 51))]
           (map sample_record (seq 0 51))).
  - reflexivity.
  - reflexivity.
  - reflexivity.
Defined.

(** * The loop as a whole *)

Section WholeLoop.

Variable repr_value : json -> string.
Variable strftime_iso : string -> option string.
Variable model_invoke : list Message -> Message + PyExn.
Variable tool_node : AgentState -> list Message + PyExn.
Variable steps : nat.


Lemma main_loop_never_crashes (rounds : nat) :
  forall keys ss e,
    fst (main_loop repr_value strftime_iso model_invoke tool_node steps rounds keys ss)
    <> Crashed e.
Proof.
  induction rounds as [|rounds IH]; intros keys ss e; [discriminate|].
  cbn [main_loop].
  destruct (main_iteration_outcome repr_value strftime_iso model_invoke tool_node steps
              (fst (next_key keys)) ss) as (ctl & ss' & -> & _).
  destruct ctl; [apply IH|discriminate].
Qed.

End WholeLoop.



Lemma main_not_crashed (repr_value : json -> string)
    (strftime_iso : string -> option string)
    (model_invoke : list Message -> Message + PyExn)
    (tool_node : AgentState -> list Message + PyExn) (steps rounds : nat)
    (keys : list keyboard) (ss : Session) (e : Fault) :
  fst (main repr_value strftime_iso model_invoke tool_node steps rounds keys ss)
  <> Crashed e.
Proof.
  unfold main, cli_bind at 1, lift.
  assert (Hinit : exists st', init_memory (world ss) = (inl tt, st')).
  { unfold init_memory, bind, set_history. apply load_memory_returns. }
  destruct Hinit as (st' & ->). cbn [cli_bind say].
  apply main_loop_never_crashes.
Qed.

(** X27: [main] never ends with an exception: the memory loads without
    raising and every pass of the loop catches what is raised in it, so for
    every input, model, storage and number of passes the program has either
    exited after a quit word or Ctrl-C at the prompt, or is still running. *)
Theorem main_never_crashes (repr_value : json -> string)
    (strftime_iso : string -> option string)
    (model_invoke : list Message -> Message + PyExn)
    (tool_node : AgentState -> list Message + PyExn) (steps rounds : nat)
    (keys : list keyboard) (ss : Session) :
  fst (main repr_value strftime_iso model_invoke tool_node steps rounds keys ss)
  = Exited
  \/ fst (main repr_value strftime_iso model_invoke tool_node steps rounds keys ss)
     = StillRunning.
Proof.
  pose proof (main_not_crashed repr_value strftime_iso model_invoke tool_node steps
                rounds keys ss) as H.
  destruct (fst (main repr_value strftime_iso model_invoke tool_node steps rounds
                   keys ss)) as [|e|];
    [now left|now destruct (H e)|now right].
Qed.
